(** * The transaction-compacting Postgres adapter of [src/pg-adapter.ts]

    A shallow embedding of [PgQueryable], [PgTransaction] and
    [PrismaPg.transactionContext], with the theorems that settle the
    claims made about them.

    The adapter talks to three collaborators whose code is not part of
    the adapter file: the helpers imported from [./pg-utils] (statement
    classifiers, context codec, [EMPTY_RESULT]), [fixArrayBufferValues]
    from [./conversion], and the [pg] client itself.  They are taken as
    parameters (classes [PgUtils] and [PgDriver]); every general theorem
    holds for all of them.  Module [SpecUtils] gives one concrete
    instance, used where a closed example is needed.

    The calls to [debug] and [logger] only write diagnostics and are
    left out, and with them the [logQueries] flag. *)

From Stdlib Require Import ZArith List Bool Ascii String Lia.
From stdpp Require Import base strings list gmap.
Import ListNotations.

Local Open Scope string_scope.

(** ** JavaScript values *)

(** The values the adapter passes around without looking inside: bind
    parameters, row cells, thrown exceptions.  Objects are kept as the
    list of their own properties. *)
#[warnings="-register-all"] Inductive JsVal : Type :=
| JsUndefined
| JsNull
| JsBoolean (b : bool)
| JsNumber (n : Z)
| JsString (s : string)
| JsObject (props : list (string * JsVal)).

(** [if (v)] *)
Definition truthy (v : JsVal) : bool :=
  match v with
  | JsUndefined | JsNull => false
  | JsBoolean b => b
  | JsNumber n => negb (n =? 0)%Z
  | JsString s => negb (String.eqb s EmptyString)
  | JsObject _ => true
  end.

Fixpoint assoc (k : string) (props : list (string * JsVal)) : JsVal :=
  match props with
  | [] => JsUndefined
  | (k', v) :: rest => if String.eqb k k' then v else assoc k rest
  end.

(** [v.k] for the property names the adapter reads; a primitive has
    none of them. *)
Definition prop (v : JsVal) (k : string) : JsVal :=
  match v with
  | JsObject props => assoc k props
  | _ => JsUndefined
  end.

(** [s] used as a condition: a string is truthy unless empty;
    [undefined] is [None]. *)
Definition truthy_text (o : option string) : bool :=
  match o with
  | Some s => negb (String.eqb s EmptyString)
  | None => false
  end.

(** ** Results of [@prisma/driver-adapter-utils] *)

(** The two error values the adapter builds: [{ kind: 'Postgres', code,
    severity, message, detail, column, hint }] and
    [{ kind: 'UnsupportedNativeDataType', type }]. *)
Inductive Error : Type :=
| Postgres (code severity message detail column hint : JsVal)
| UnsupportedNativeDataType (type : Z).

Inductive Result (A : Type) : Type :=
| ok (value : A)
| err (error : Error).
Arguments ok {A} value.
Arguments err {A} error.

(** How a JavaScript call ends: it returns, or it throws.  [Stuck] is
    the model's own third case, for a recursion cut off by its fuel; the
    adapter never reaches it (lemma [performIO_fuel]). *)
Inductive Completion (A : Type) : Type :=
| Return (value : A)
| Throw (e : JsVal)
| Stuck.
Arguments Return {A} value.
Arguments Throw {A} e.
Arguments Stuck {A}.

(** ** Queries, results, the connection *)

Record Query : Type := mkQuery { sql : string; args : list JsVal }.

Record FieldDef : Type := mkField { name : string; dataTypeID : Z }.

Record QueryResult : Type := mkQueryResult {
  rowCount : option Z;
  fields : list FieldDef;
  rows : list (list JsVal)
}.

Record ResultSet : Type := mkResultSet {
  columnNames : list string;
  columnTypes : list Z;
  rows_of : list (list JsVal)
}.

(** What [fieldToColumnType] throws: an [UnsupportedNativeDataType]
    carrying the type, or anything else. *)
Inductive ConversionThrow : Type :=
| Unsupported (type : Z)
| Other (e : JsVal).

(** What the physical connection has been asked to do, oldest first. *)
Inductive Event : Type :=
| EvQuery (text : string) (values : list JsVal)
| EvRelease.

(** A payload of the context codec: string keys, string values. *)
Abbreviation Payload := (gmap string string).

(** The imports from [./pg-utils]. *)
Class PgUtils : Type := {
  EMPTY_RESULT : QueryResult;
  contextToSqlComment : Payload -> string;
  sqlCommentToContext : string -> JsVal + Payload;
  isContextComment : string -> bool;
  isWriteQuery : string -> bool;
  isBeginQuery : string -> bool;
  isCommitQuery : string -> bool
}.

(** The [pg] client and [./conversion].  [client_query past text values]
    is what [client.query] answers, given everything the connection was
    asked before: rows, or a thrown value.  [fieldToColumnType] gives a
    column type (a number) or throws. *)
Class PgDriver : Type := {
  client_query : list Event -> string -> list JsVal -> JsVal + QueryResult;
  fixArrayBufferValues : list JsVal -> list JsVal;
  fieldToColumnType : Z -> ConversionThrow + Z
}.

(** The client object held by a [PgQueryable]: a pool ([StdClient], no
    [previousQueries]) or a pooled connection dressed up by
    [transactionContext] ([TransactionClient]).  [events] is the
    connection's own history. *)
Record Client : Type := mkClient {
  previousQueries : option (list Query);
  readyToExecuteTransaction : bool;
  events : list Event
}.

Definition set_previousQueries (l : option (list Query)) (c : Client) : Client :=
  mkClient l (readyToExecuteTransaction c) (events c).

Definition set_readyToExecuteTransaction (b : bool) (c : Client) : Client :=
  mkClient (previousQueries c) b (events c).

Definition add_event (e : Event) (c : Client) : Client :=
  mkClient (previousQueries c) (readyToExecuteTransaction c) (events c ++ [e])%list.

(** [previousQueries.push(query)]: the array is the one the client
    holds, so the client sees the new entry. *)
Definition push (q : Query) (c : Client) : Client :=
  match previousQueries c with
  | Some l => set_previousQueries (Some (l ++ [q])%list) c
  | None => c
  end.

(** [{ SQL: sql, ...context }]: the spread comes second, so a key it
    shares with the literal keeps the spread's value. *)
Definition with_SQL (sql : string) (context : Payload) : Payload :=
  context ∪ {[ "SQL" := sql ]}.

Section Adapter.
Context `{U : PgUtils} `{D : PgDriver}.

(** [this.client.query({ text, values: fixArrayBufferValues(values), ... },
    fixArrayBufferValues(values))] *)
Definition query_client (text : string) (values : list JsVal) (c : Client)
  : Completion QueryResult * Client :=
  let sent := fixArrayBufferValues values in
  let c' := add_event (EvQuery text sent) c in
  match client_query (events c) text sent with
  | inr result => (Return result, c')
  | inl e => (Throw e, c')
  end.

(** [previousQueries.find((q) => isContextComment(q.sql))?.sql] *)
Definition previousContextComment (l : list Query) : option string :=
  option_map sql (List.find (fun q => isContextComment (sql q)) l).

(** The [text] the statement is sent with (lines 135 and 148-150);
    decoding the context comment may throw. *)
Definition rewritten (sql : string) (l : list Query) : JsVal + string :=
  let previous := previousContextComment l in
  if truthy_text previous && isWriteQuery sql then
    match previous with
    | Some comment =>
        match sqlCommentToContext comment with
        | inr context => inr (sql +:+ " " +:+ contextToSqlComment (with_SQL sql context))
        | inl e => inl e
        end
    | None => inr sql
    end
  else inr sql.

(** The [for ... of previousQueries.slice(0, length - 1)] loop of lines
    170-172; [io] is [this.performIO].  What [io] returns is dropped;
    what it throws ends the loop. *)
Fixpoint catchUp (io : Query -> bool -> Client -> Completion (Result QueryResult) * Client)
    (l : list Query) (c : Client) : Completion unit * Client :=
  match l with
  | [] => (Return tt, c)
  | prevQuery :: rest =>
      match io prevQuery true c with
      | (Return _, c') => catchUp io rest c'
      | (Throw e, c') => (Throw e, c')
      | (Stuck, c') => (Stuck, c')
      end
  end.

(** Lines 176-215: the context check that closes the transaction
    branch, then the call to the connection. *)
Definition skipContextOrQuery (inTransaction : bool) (sql text : string)
    (values : list JsVal) (c : Client) : Completion QueryResult * Client :=
  if inTransaction && isContextComment sql then (Return EMPTY_RESULT, c)
  else query_client text values c.

(** [compactPerformIOResult], lines 130-216. *)
Definition compactPerformIOResult
    (io : Query -> bool -> Client -> Completion (Result QueryResult) * Client)
    (query : Query) (catchingUp : bool) (c : Client)
  : Completion QueryResult * Client :=
  let sql := sql query in
  let values := args query in
  let ready := readyToExecuteTransaction c in
  match previousQueries c with
  | None => skipContextOrQuery false sql sql values c
  | Some before =>
      let isContext := isContextComment sql in
      let isWrite := isWriteQuery sql in
      let previous := previousContextComment before in
      match rewritten sql before with
      | inl e => (Throw e, c)
      | inr text =>
          let c1 := if catchingUp then c else push query c in
          let l := if catchingUp then before else (before ++ [query])%list in
          let n := length l in
          if negb ready then
            if isBeginQuery sql && (n =? 1)%nat then (Return EMPTY_RESULT, c1)
            else if isCommitQuery sql && truthy_text previous && (n =? 4)%nat
            then (Return EMPTY_RESULT, c1)
            else if ((n =? 2)%nat && negb isContext) || ((n =? 3)%nat && negb isWrite) then
              match catchUp io (firstn (n - 1) l)
                      (set_readyToExecuteTransaction true c1) with
              | (Return _, c2) => skipContextOrQuery true sql text values c2
              | (Throw e, c2) => (Throw e, c2)
              | (Stuck, c2) => (Stuck, c2)
              end
            else skipContextOrQuery true sql text values c1
          else skipContextOrQuery true sql text values c1
      end
  end.

(** [typeof e.k === 'string'] *)
Definition typeofString (e : JsVal) (k : string) : bool :=
  match prop e k with
  | JsString _ => true
  | _ => false
  end.

(** The test of line 114. *)
Definition databaseReported (e : JsVal) : bool :=
  truthy e && typeofString e "code" && typeofString e "severity"
  && typeofString e "message".

(** The [try]/[catch] of [performIO], lines 104-126, around the
    completion of [compactPerformIOResult]. *)
Definition catching (r : Completion QueryResult * Client)
  : Completion (Result QueryResult) * Client :=
  match r with
  | (Return result, c') => (Return (ok result), c')
  | (Throw e, c') =>
      if databaseReported e then
        (Return (err (Postgres (prop e "code") (prop e "severity") (prop e "message")
                        (prop e "detail") (prop e "column") (prop e "hint"))), c')
      else (Throw e, c')
  | (Stuck, c') => (Stuck, c')
  end.

(** [performIO], lines 101-127.  The fuel counts the nesting of
    [performIO] inside [compactPerformIOResult] inside [performIO]. *)
Fixpoint performIO (fuel : nat) (query : Query) (catchingUp : bool) (c : Client)
  : Completion (Result QueryResult) * Client :=
  match fuel with
  | O => (Stuck, c)
  | S fuel' => catching (compactPerformIOResult (performIO fuel') query catchingUp c)
  end.

(** A statement handed to the adapter by its caller ([queryRaw] and
    [executeRaw] both start with [this.performIO(query)]).  Two levels
    of [performIO] are all a submission can use. *)
Definition submit (query : Query) (c : Client)
  : Completion (Result QueryResult) * Client :=
  performIO 2 query false c.

(** [executeRaw], lines 87-93. *)
Definition executeRaw (query : Query) (c : Client)
  : Completion (Result Z) * Client :=
  match submit query c with
  | (Return (ok result), c') =>
      (Return (ok (match rowCount result with Some n => n | None => 0%Z end)), c')
  | (Return (err error), c') => (Return (err error), c')
  | (Throw e, c') => (Throw e, c')
  | (Stuck, c') => (Stuck, c')
  end.

(** [fields.map((field) => fieldToColumnType(field.dataTypeID))]: the
    first field that throws ends the map. *)
Fixpoint columnTypesOf (l : list FieldDef) : ConversionThrow + list Z :=
  match l with
  | [] => inr []
  | field :: rest =>
      match fieldToColumnType (dataTypeID field) with
      | inl e => inl e
      | inr t =>
          match columnTypesOf rest with
          | inl e => inl e
          | inr ts => inr (t :: ts)
          end
      end
  end.

(** [queryRaw], lines 49-80. *)
Definition queryRaw (query : Query) (c : Client)
  : Completion (Result ResultSet) * Client :=
  match submit query c with
  | (Return (err error), c') => (Return (err error), c')
  | (Return (ok result), c') =>
      match columnTypesOf (fields result) with
      | inr columnTypes =>
          (Return (ok (mkResultSet (List.map name (fields result)) columnTypes
                         (rows result))), c')
      | inl (Unsupported type) => (Return (err (UnsupportedNativeDataType type)), c')
      | inl (Other e) => (Throw e, c')
      end
  | (Throw e, c') => (Throw e, c')
  | (Stuck, c') => (Stuck, c')
  end.

(** [this.client.release()]: the connection is asked for its release,
    and the call returns. *)
Definition release (c : Client) : Client := add_event EvRelease c.

(** [PgTransaction.commit] and [PgTransaction.rollback], lines 227-239. *)

Definition commit (c : Client) : Completion (Result unit) * Client :=
  (Return (ok tt), release c).

Definition rollback (c : Client) : Completion (Result unit) * Client :=
  (Return (ok tt), release c).

(** [PrismaPg.transactionContext], lines 298-307: [conn] is what
    [this.client.connect()] handed out. *)
Definition transactionContext (conn : Client) : Client :=
  set_readyToExecuteTransaction false (set_previousQueries (Some []) conn).

(** A caller submitting statements one after the other, whatever each
    of them answers. *)
Fixpoint submitAll (l : list Query) (c : Client)
  : list (Completion (Result QueryResult)) * Client :=
  match l with
  | [] => ([], c)
  | q :: rest =>
      let (r, c') := submit q c in
      let (rs, c'') := submitAll rest c' in
      (r :: rs, c'')
  end.

(** What the connection is asked when [p] is replayed against the log
    [l]. *)
Definition replayOf (l : list Query) (p : Query) (ev : Event) : Prop :=
  isContextComment (sql p) = false /\
  exists text, rewritten (sql p) l = inr text /\
               ev = EvQuery text (fixArrayBufferValues (args p)).

(** What the caller of [performIO] gets for a statement that reaches
    the connection with history [past]. *)
Definition answer (past : list Event) (text : string) (values : list JsVal)
  : Completion (Result QueryResult) :=
  (catching (query_client text values (mkClient None false past))).1.

(** The marker the spec reads [previousContextComment] as: the last
    one of the log. *)
Definition mostRecentContextComment (l : list Query) : option string :=
  previousContextComment (rev l).

(** [TransactionOptions] of [@prisma/driver-adapter-utils]. *)
Record TransactionOptions : Type := mkOptions { usePhantomQuery : bool }.

(** [PgTransactionContext.startTransaction], lines 247-256: the
    [PgTransaction] it returns holds the same connection object, so the
    session is the one passed on; what is returned beside it is the
    options. *)
Definition startTransaction (c : Client)
  : Completion (Result TransactionOptions) * Client :=
  (Return (ok (mkOptions false)), c).

(** [PrismaPgOptions] and [PrismaPg.getConnectionInfo], lines 259-296:
    [this.options?.schema]. *)
Record PrismaPgOptions : Type := mkPrismaPgOptions { schema : option string }.

Definition getConnectionInfo (options : option PrismaPgOptions)
  : Result (option string) :=
  ok (match options with
      | Some o => schema o
      | None => None
      end).

(** The request a statement makes when it is sent as it is. *)
Definition verbatim (q : Query) : Event :=
  EvQuery (sql q) (fixArrayBufferValues (args q)).

Definition isQuery (ev : Event) : bool :=
  match ev with
  | EvQuery _ _ => true
  | EvRelease => false
  end.

(** The two tests of lines 159 and 162, and the test of lines 165-168,
    for a statement [text] arriving on a log [l]. *)
Definition withheld (text : string) (l : list Query) : bool :=
  (isBeginQuery text && (S (length l) =? 1)%nat)
  || (isCommitQuery text && truthy_text (previousContextComment l)
      && (S (length l) =? 4)%nat).

Definition triggers (text : string) (l : list Query) : bool :=
  ((S (length l) =? 2)%nat && negb (isContextComment text))
  || ((S (length l) =? 3)%nat && negb (isWriteQuery text)).

(** The session [c] on a connection that was asked [past] before. *)
Definition rebase (past : list Event) (c : Client) : Client :=
  mkClient (previousQueries c) (readyToExecuteTransaction c) (past ++ events c)%list.

(** Two calls that end alike, on two connections with histories [past1]
    and [past2]: same completion, same log, same flag, same new
    requests. *)
Definition alike {A : Type} (past1 past2 : list Event)
    (x1 x2 : Completion A * Client) : Prop :=
  exists r c', x1 = (r, rebase past1 c') /\ x2 = (r, rebase past2 c').

End Adapter.

(** ** One concrete set of collaborators *)

Module SpecUtils.

Definition quote : ascii := "034"%char.
Definition backslash : ascii := "092"%char.

Definition is_space (c : ascii) : bool :=
  Ascii.eqb c " " || Ascii.eqb c "009" || Ascii.eqb c "010" || Ascii.eqb c "013".

Fixpoint skip_spaces (s : string) : string :=
  match s with
  | String c rest => if is_space c then skip_spaces rest else s
  | EmptyString => s
  end.

Definition upper (c : ascii) : ascii :=
  let n := nat_of_ascii c in
  if (97 <=? n)%nat && (n <=? 122)%nat then ascii_of_nat (n - 32) else c.

Definition is_letter (c : ascii) : bool :=
  let n := nat_of_ascii (upper c) in (65 <=? n)%nat && (n <=? 90)%nat.

Fixpoint leading_letters (s : string) : string :=
  match s with
  | String c rest =>
      if is_letter c then String (upper c) (leading_letters rest) else EmptyString
  | EmptyString => EmptyString
  end.

(** The statement's leading keyword, in capitals. *)
Definition keyword (s : string) : string := leading_letters (skip_spaces s).

Definition marker : string := "-- ctx:".

Fixpoint escape (s : string) : string :=
  match s with
  | EmptyString => EmptyString
  | String c rest =>
      if Ascii.eqb c quote || Ascii.eqb c backslash
      then String backslash (String c (escape rest))
      else String c (escape rest)
  end.

Definition quoted (s : string) : string :=
  String quote (escape s +:+ String quote EmptyString).

Definition member (kv : string * string) : string :=
  quoted kv.1 +:+ ":" +:+ quoted kv.2.

Fixpoint join (l : list string) : string :=
  match l with
  | [] => EmptyString
  | [x] => x
  | x :: rest => x +:+ "," +:+ join rest
  end.

Definition stringify (p : Payload) : string :=
  "{" +:+ join (List.map member (map_to_list p)) +:+ "}".

(** Reads a string body up to its closing quote; gives the body and
    what follows the quote. *)
Fixpoint read_quoted (s : string) : option (string * string) :=
  match s with
  | EmptyString => None
  | String c rest =>
      if Ascii.eqb c quote then Some (EmptyString, rest)
      else if Ascii.eqb c backslash then
        match rest with
        | String c' rest' =>
            match read_quoted rest' with
            | Some (v, r) => Some (String c' v, r)
            | None => None
            end
        | EmptyString => None
        end
      else
        match read_quoted rest with
        | Some (v, r) => Some (String c v, r)
        | None => None
        end
  end.

Definition read_string (s : string) : option (string * string) :=
  match s with
  | String c rest => if Ascii.eqb c quote then read_quoted rest else None
  | EmptyString => None
  end.

Definition read_member (s : string) : option (string * string * string) :=
  match read_string s with
  | Some (k, String ":" r) =>
      match read_string r with
      | Some (v, r') => Some (k, v, r')
      | None => None
      end
  | _ => None
  end.

Fixpoint read_members (fuel : nat) (s : string) (acc : Payload) : option Payload :=
  match fuel with
  | O => None
  | S fuel' =>
      match read_member s with
      | Some (k, v, String "," r) => read_members fuel' r (<[k:=v]> acc)
      | Some (k, v, String "}" EmptyString) => Some (<[k:=v]> acc)
      | _ => None
      end
  end.

Definition parse (s : string) : option Payload :=
  match s with
  | String "{" (String "}" EmptyString) => Some ∅
  | String "{" r => read_members (String.length r) r ∅
  | _ => None
  end.

Fixpoint strip (pre s : string) : option string :=
  match pre, s with
  | EmptyString, _ => Some s
  | String a pre', String b s' => if Ascii.eqb a b then strip pre' s' else None
  | String _ _, EmptyString => None
  end.

(** What decoding a malformed marker throws. *)
Definition malformed : JsVal :=
  JsObject [("name", JsString "SyntaxError");
            ("message", JsString "malformed context marker")].

(** Modelled from the spec: [./pg-utils] is not part of the adapter
    file.  Classifiers match the statement's leading keyword, whatever
    its case and leading white space, or the comment marker of the
    spec's scenarios ([-- ctx:] followed by the payload as a JSON
    object); the codec writes and reads that marker; the empty result
    has no rows. *)
#[local] Instance utils : PgUtils := {|
  EMPTY_RESULT := mkQueryResult None [] [];
  contextToSqlComment p := marker +:+ stringify p;
  sqlCommentToContext s :=
    match strip marker (skip_spaces s) with
    | Some body =>
        match parse body with
        | Some p => inr p
        | None => inl malformed
        end
    | None => inl malformed
    end;
  isContextComment s := String.prefix marker (skip_spaces s);
  isWriteQuery s :=
    let k := keyword s in
    String.eqb k "INSERT" || String.eqb k "UPDATE" || String.eqb k "DELETE";
  isBeginQuery s := String.eqb (keyword s) "BEGIN";
  isCommitQuery s := String.eqb (keyword s) "COMMIT"
|}.

(** What the example connections answer. *)
Definition one_row : QueryResult :=
  mkQueryResult (Some 1%Z) [mkField "x" 23] [[JsNumber 1]].

(** A database error as [pg] throws it. *)
Definition no_transaction : JsVal :=
  JsObject [("code", JsString "25P02"); ("severity", JsString "ERROR");
            ("message", JsString "current transaction is aborted");
            ("detail", JsUndefined)].

(** A failure of the connection itself: no code, no severity. *)
Definition connection_lost : JsVal :=
  JsObject [("message", JsString "Connection terminated unexpectedly")].

(** A connection on which every statement succeeds. *)
#[local] Instance obliging : PgDriver := {|
  client_query _ _ _ := inr one_row;
  fixArrayBufferValues values := values;
  fieldToColumnType oid := inr oid
|}.

(** A connection that answers [BEGIN] with a database error. *)
#[local] Instance refusing_begin : PgDriver := {|
  client_query _ text _ :=
    if String.eqb text "BEGIN" then inl no_transaction else inr one_row;
  fixArrayBufferValues values := values;
  fieldToColumnType oid := inr oid
|}.

(** A connection that is lost when [BEGIN] arrives. *)
#[local] Instance losing_begin : PgDriver := {|
  client_query _ text _ :=
    if String.eqb text "BEGIN" then inl connection_lost else inr one_row;
  fixArrayBufferValues values := values;
  fieldToColumnType oid := inr oid
|}.

(** A connection freshly handed out by the pool. *)
Definition idle : Client := mkClient None false [].

Definition stmt (text : string) : Query := mkQuery text [].

Definition user_alice : Payload := {[ "user" := "alice" ]}.
Definition user_bob : Payload := {[ "user" := "bob" ]}.
Definition with_sql_key : Payload := {[ "SQL" := "SELECT 1" ]}.

Definition marker_of (p : Payload) : Query := stmt (contextToSqlComment p).

Definition BEGIN : Query := stmt "BEGIN".
Definition COMMIT : Query := stmt "COMMIT".
Definition SELECT_1 : Query := stmt "SELECT 1".
Definition SELECT_2 : Query := stmt "SELECT 2".
Definition UPDATE : Query := stmt "UPDATE t SET x=1".

(** A session that has seen [BEGIN] and two context markers; the
    second marker, third in the log, materialized it. *)
Definition two_markers : Client :=
  mkClient (Some [BEGIN; marker_of user_alice; marker_of user_bob]) true
    [EvQuery "BEGIN" []].

(** A session materialized by its second statement. *)
Definition materialized : Client :=
  mkClient (Some [BEGIN; SELECT_1]) true [EvQuery "BEGIN" []; EvQuery "SELECT 1" []].

(** A malformed context marker. *)
Definition broken_marker : Query := stmt "-- ctx:oops".

(** A result with a column of a type the conversion does not know. *)
Definition two_columns : QueryResult :=
  mkQueryResult (Some 1%Z) [mkField "id" 23; mkField "shape" 604]
    [[JsNumber 1; JsString "circle"]].

(** A connection that answers with [two_columns], behind a conversion
    that knows the integer type only. *)
#[local] Instance integers_only : PgDriver := {|
  client_query _ _ _ := inr two_columns;
  fixArrayBufferValues values := values;
  fieldToColumnType oid :=
    if (oid =? 23)%Z then inr 0%Z else inl (Unsupported oid)
|}.

(** A canonical session before its [COMMIT], and a session with a
    malformed marker. *)
Definition three_statements : Client :=
  mkClient (Some [BEGIN; marker_of user_alice; UPDATE]) false
    [EvQuery (sql UPDATE +:+ " " +:+ contextToSqlComment (with_SQL (sql UPDATE) user_alice)) []].

Definition after_broken_marker : Client :=
  mkClient (Some [BEGIN; broken_marker]) false [].

End SpecUtils.

(** ** How one call goes *)

Section Facts.
Context `{U : PgUtils} `{D : PgDriver}.

Implicit Types (c : Client) (q : Query) (l : list Query).

Lemma push_Some q c l :
  previousQueries c = Some l ->
  push q c = mkClient (Some (l ++ [q])%list) (readyToExecuteTransaction c) (events c).
Proof. intros H. unfold push, set_previousQueries. now rewrite H. Qed.

(** A pool client: the statement goes straight to the connection. *)
Lemma compact_pool io q cu c :
  previousQueries c = None ->
  compactPerformIOResult io q cu c = query_client (sql q) (args q) c.
Proof. intros H. unfold compactPerformIOResult. now rewrite H. Qed.

(** A materialized session: no suppression of [BEGIN] or [COMMIT], no
    replay. *)
Lemma compact_ready io q cu c l :
  previousQueries c = Some l ->
  readyToExecuteTransaction c = true ->
  compactPerformIOResult io q cu c =
    match rewritten (sql q) l with
    | inl e => (Throw e, c)
    | inr text =>
        skipContextOrQuery true (sql q) text (args q) (if cu then c else push q c)
    end.
Proof.
  intros Hl Hr. unfold compactPerformIOResult. rewrite Hl, Hr.
  destruct (rewritten (sql q) l); reflexivity.
Qed.

(** An unmaterialized session, a statement from the caller. *)
Lemma compact_speculative io q c l :
  previousQueries c = Some l ->
  readyToExecuteTransaction c = false ->
  compactPerformIOResult io q false c =
    match rewritten (sql q) l with
    | inl e => (Throw e, c)
    | inr text =>
        let n := S (length l) in
        if isBeginQuery (sql q) && (n =? 1)%nat then (Return EMPTY_RESULT, push q c)
        else if isCommitQuery (sql q) && truthy_text (previousContextComment l)
                && (n =? 4)%nat
        then (Return EMPTY_RESULT, push q c)
        else if ((n =? 2)%nat && negb (isContextComment (sql q)))
                || ((n =? 3)%nat && negb (isWriteQuery (sql q))) then
          match catchUp io l (set_readyToExecuteTransaction true (push q c)) with
          | (Return _, c2) => skipContextOrQuery true (sql q) text (args q) c2
          | (Throw e, c2) => (Throw e, c2)
          | (Stuck, c2) => (Stuck, c2)
          end
        else skipContextOrQuery true (sql q) text (args q) (push q c)
    end.
Proof.
  intros Hl Hr. unfold compactPerformIOResult. rewrite Hl, Hr.
  destruct (rewritten (sql q) l) as [e|text]; [reflexivity|].
  cbn [negb]. rewrite length_app. cbn [length].
  replace (length l + 1)%nat with (S (length l)) by lia.
  replace (S (length l) - 1)%nat with (length l) by lia.
  now rewrite firstn_app, Nat.sub_diag, firstn_all, firstn_O, app_nil_r.
Qed.

Lemma rewritten_plain text l :
  isWriteQuery text = false -> rewritten text l = inr text.
Proof. intros H. unfold rewritten. now rewrite H, andb_false_r. Qed.

Lemma rewritten_no_context text l :
  previousContextComment l = None -> rewritten text l = inr text.
Proof. intros H. unfold rewritten. now rewrite H. Qed.

(** [find] stops at the first marker of the log. *)
Lemma previousContextComment_first pre m post :
  Forall (fun p => isContextComment (sql p) = false) pre ->
  isContextComment (sql m) = true ->
  previousContextComment (pre ++ m :: post) = Some (sql m).
Proof.
  intros Hpre Hm. unfold previousContextComment.
  induction Hpre as [|p pre Hp _ IH]; cbn.
  - now rewrite Hm.
  - now rewrite Hp.
Qed.

Lemma previousContextComment_none l :
  Forall (fun p => isContextComment (sql p) = false) l ->
  previousContextComment l = None.
Proof.
  intros H. unfold previousContextComment.
  induction H as [|p l Hp _ IH]; cbn; [reflexivity|]. now rewrite Hp.
Qed.

Lemma rewritten_write text l comment context :
  previousContextComment l = Some comment ->
  comment <> EmptyString ->
  sqlCommentToContext comment = inr context ->
  isWriteQuery text = true ->
  rewritten text l = inr (text +:+ " " +:+ contextToSqlComment (with_SQL text context)).
Proof.
  intros Hp Hne Hd Hw. unfold rewritten. rewrite Hp, Hw. cbn.
  destruct (String.eqb_spec comment EmptyString) as [->|_]; [easy|].
  cbn. now rewrite Hd.
Qed.

(** In a materialized session a context marker is answered on the
    spot, and any other statement goes to the connection. *)
Lemma performIO_ready_marker n q c l :
  previousQueries c = Some l ->
  readyToExecuteTransaction c = true ->
  isContextComment (sql q) = true ->
  isWriteQuery (sql q) = false ->
  forall cu, performIO (S n) q cu c = (Return (ok EMPTY_RESULT), if cu then c else push q c).
Proof.
  intros Hl Hr Hc Hw cu. cbn [performIO].
  rewrite (compact_ready _ _ _ _ _ Hl Hr), (rewritten_plain _ _ Hw).
  unfold skipContextOrQuery. now rewrite Hc.
Qed.

Lemma performIO_ready_query n q c l text :
  previousQueries c = Some l ->
  readyToExecuteTransaction c = true ->
  isContextComment (sql q) = false ->
  rewritten (sql q) l = inr text ->
  forall cu, performIO (S n) q cu c =
    catching (query_client text (args q) (if cu then c else push q c)).
Proof.
  intros Hl Hr Hc Ht cu. cbn [performIO].
  rewrite (compact_ready _ _ _ _ _ Hl Hr), Ht.
  unfold skipContextOrQuery. now rewrite Hc.
Qed.

(** ** Replay *)

(** A call made by the replay loop finds the session materialized: it
    never looks at [io], and so never nests further. *)
Lemma replay_step n q c l :
  previousQueries c = Some l ->
  readyToExecuteTransaction c = true ->
  performIO (S n) q true c =
    match rewritten (sql q) l with
    | inl e => catching (Throw e, c)
    | inr text =>
        if isContextComment (sql q) then (Return (ok EMPTY_RESULT), c)
        else catching (query_client text (args q) c)
    end.
Proof.
  intros Hl Hr. cbn [performIO]. rewrite (compact_ready _ _ _ _ _ Hl Hr).
  destruct (rewritten (sql q) l) as [e|text]; [reflexivity|].
  unfold skipContextOrQuery. cbn [andb].
  now destruct (isContextComment (sql q)).
Qed.

Lemma catching_throw e c :
  (exists error, catching (Throw e, c) = (Return (err error), c)) \/
  (catching (Throw e, c) = (Throw e, c) /\ databaseReported e = false).
Proof.
  unfold catching. destruct (databaseReported e); [left; eauto | right; auto].
Qed.

Lemma replay_step_effect n q c l :
  previousQueries c = Some l ->
  readyToExecuteTransaction c = true ->
  exists r c' evs,
    performIO (S n) q true c = (r, c') /\
    previousQueries c' = Some l /\
    readyToExecuteTransaction c' = true /\
    events c' = (events c ++ evs)%list /\
    Forall (replayOf l q) evs /\
    ((exists v, r = Return v) \/ (exists e, r = Throw e /\ databaseReported e = false)).
Proof.
  intros Hl Hr. rewrite (replay_step n q c l Hl Hr).
  destruct (rewritten (sql q) l) as [e|text] eqn:Ht.
  - exists (catching (Throw e, c)).1, c, [].
    destruct (catching_throw e c) as [[error ->]|[-> He]]; cbn;
      rewrite app_nil_r; repeat split; eauto.
  - destruct (isContextComment (sql q)) eqn:Hc.
    + exists (Return (ok EMPTY_RESULT)), c, []. rewrite app_nil_r.
      repeat split; eauto.
    + unfold query_client.
      set (sent := fixArrayBufferValues (args q)).
      set (c' := add_event (EvQuery text sent) c).
      assert (Hev : Forall (replayOf l q) [EvQuery text sent]).
      { repeat constructor; [exact Hc|]. exists text. auto. }
      destruct (client_query (events c) text sent) as [e|result].
      * destruct (catching_throw e c') as [[error ->]|[-> He]];
          eexists _, c', _; repeat split; eauto.
      * cbn. eexists _, c', _; repeat split; eauto.
Qed.

(** The replay loop over a materialized session: the log and the flag
    stay as they are, the connection is asked only for statements of
    the replayed list that are not context markers, and the loop ends
    by running out of statements or by a thrown failure that is not a
    database error. *)
Lemma catchUp_effect n ps c l :
  previousQueries c = Some l ->
  readyToExecuteTransaction c = true ->
  exists r c' evs,
    catchUp (performIO (S n)) ps c = (r, c') /\
    previousQueries c' = Some l /\
    readyToExecuteTransaction c' = true /\
    events c' = (events c ++ evs)%list /\
    Forall (fun ev => exists p, In p ps /\ replayOf l p ev) evs /\
    (r = Return tt \/ (exists e, r = Throw e /\ databaseReported e = false)).
Proof.
  revert c. induction ps as [|p ps IH]; intros c Hl Hr.
  - exists (Return tt), c, []. rewrite app_nil_r. repeat split; auto.
  - cbn [catchUp].
    destruct (replay_step_effect n p c l Hl Hr)
      as (r & c1 & evs1 & -> & Hl1 & Hr1 & Hev1 & Hall1 & Hr1').
    assert (Hall1' : Forall (fun ev => exists p0, In p0 (p :: ps) /\ replayOf l p0 ev) evs1).
    { eapply Forall_impl; [exact Hall1|]. intros ev H. exists p. split; [now left|exact H]. }
    destruct Hr1' as [[v ->]|[e [-> He]]].
    + destruct (IH c1 Hl1 Hr1) as (r2 & c2 & evs2 & -> & Hl2 & Hr2 & Hev2 & Hall2 & Hr2').
      exists r2, c2, (evs1 ++ evs2)%list. repeat split; auto.
      * now rewrite Hev2, Hev1, app_assoc.
      * apply Forall_app. split; [exact Hall1'|].
        eapply Forall_impl; [exact Hall2|].
        intros ev (p0 & Hin & H). exists p0. split; [now right|exact H].
    + exists (Throw e), c1, evs1. repeat split; eauto.
Qed.

Lemma catchUp_fuel n ps c l :
  previousQueries c = Some l ->
  readyToExecuteTransaction c = true ->
  catchUp (performIO (S n)) ps c = catchUp (performIO 1) ps c.
Proof.
  revert c. induction ps as [|p ps IH]; intros c Hl Hr; [reflexivity|].
  cbn [catchUp].
  rewrite (replay_step n p c l Hl Hr), <- (replay_step 0 p c l Hl Hr).
  destruct (replay_step_effect 0 p c l Hl Hr)
    as (r & c1 & evs1 & -> & Hl1 & Hr1 & _).
  destruct r; auto.
Qed.

Lemma compact_fuel n q cu c :
  compactPerformIOResult (performIO (S n)) q cu c =
  compactPerformIOResult (performIO 1) q cu c.
Proof.
  unfold compactPerformIOResult.
  destruct (previousQueries c) as [before|] eqn:Hl; [|reflexivity].
  destruct (rewritten (sql q) before); [reflexivity|].
  destruct (negb (readyToExecuteTransaction c)); [|reflexivity].
  repeat match goal with
         | |- (if ?b then _ else _) = _ => destruct b eqn:?; try reflexivity
         end;
    apply (f_equal (fun r => match r with
                              | (Return _, c2) => _
                              | (Throw e, c2) => _
                              | (Stuck, c2) => _
                              end));
    apply (catchUp_fuel n _ _ (if cu then before else (before ++ [q])%list));
    destruct cu; cbn; try rewrite (push_Some _ _ _ Hl); cbn; auto.
Qed.

(** Two levels of [performIO] are enough for every call, and no call
    is cut short by the fuel. *)
Lemma performIO_fuel n q cu c :
  performIO (2 + n) q cu c = performIO 2 q cu c /\
  (performIO 2 q cu c).1 <> Stuck.
Proof.
  split.
  - cbn [plus]. change (performIO (S (S n)) q cu c)
      with (catching (compactPerformIOResult (performIO (S n)) q cu c)).
    now rewrite compact_fuel.
  - change (performIO 2 q cu c)
      with (catching (compactPerformIOResult (performIO 1) q cu c)).
    assert (Hcatch : forall r, r.1 <> Stuck -> (catching r).1 <> Stuck).
    { intros [[v|e|] c0] H; cbn in *; try easy. now destruct (databaseReported e). }
    assert (Hq : forall text values c0, (query_client text values c0).1 <> Stuck).
    { intros. unfold query_client. now destruct client_query. }
    assert (Hs : forall b s text values c0,
               (skipContextOrQuery b s text values c0).1 <> Stuck).
    { intros. unfold skipContextOrQuery. destruct (_ && _); [easy|apply Hq]. }
    apply Hcatch. unfold compactPerformIOResult.
    destruct (previousQueries c) as [before|] eqn:Hl; [|apply Hs].
    destruct (rewritten (sql q) before); [easy|].
    destruct (negb (readyToExecuteTransaction c)); [|apply Hs].
    repeat match goal with
           | |- (if ?b then _ else _).1 <> _ => destruct b eqn:?; try easy; try apply Hs
           end.
    all: match goal with
         | |- context [catchUp _ ?ps ?c0] =>
             let l0 := constr:(if cu then before else (before ++ [q])%list) in
             destruct (catchUp_effect 0 ps c0 l0)
               as (r & c2 & evs & -> & _ & _ & _ & _ & [->|[e [-> _]]])
         end; try easy; try apply Hs.
    all: destruct cu; cbn; try rewrite (push_Some _ _ _ Hl); cbn; auto.
Qed.

(** ** Statements that reach the connection *)

Lemma catching_query text values c :
  catching (query_client text values c) =
    (answer (events c) text values,
     add_event (EvQuery text (fixArrayBufferValues values)) c).
Proof.
  unfold answer, query_client. cbn.
  destruct (client_query (events c) text (fixArrayBufferValues values)) as [e|r];
    cbn; [|reflexivity].
  now destruct (databaseReported e).
Qed.

Lemma rewritten_defined text l comment context :
  previousContextComment l = Some comment ->
  sqlCommentToContext comment = inr context ->
  exists text', rewritten text l = inr text'.
Proof.
  intros Hp Hd. unfold rewritten. rewrite Hp, Hd.
  destruct (_ && _); eauto.
Qed.

(** A write statement submitted after a context marker goes to the
    connection with the comment built from the first marker of the
    log, whether the session is materialized or not. *)
Lemma write_after_marker c pre m post q context :
  previousQueries c = Some (pre ++ m :: post)%list ->
  Forall (fun p => isContextComment (sql p) = false) pre ->
  isContextComment (sql m) = true ->
  sql m <> EmptyString ->
  sqlCommentToContext (sql m) = inr context ->
  isWriteQuery (sql q) = true ->
  isContextComment (sql q) = false ->
  isCommitQuery (sql q) = false ->
  let text := sql q +:+ " " +:+ contextToSqlComment (with_SQL (sql q) context) in
  rewritten (sql q) (pre ++ m :: post) = inr text /\
  (submit q c).1 = answer (events c) text (args q) /\
  events (submit q c).2 =
    (events c ++ [EvQuery text (fixArrayBufferValues (args q))])%list.
Proof.
  intros Hl Hpre Hm Hne Hd Hw Hc Hk text.
  pose proof (previousContextComment_first pre m post Hpre Hm) as Hp.
  pose proof (rewritten_write (sql q) _ _ _ Hp Hne Hd Hw) as Ht.
  split; [exact Ht|].
  unfold submit.
  destruct (readyToExecuteTransaction c) eqn:Hr.
  - rewrite (performIO_ready_query _ _ _ _ _ Hl Hr Hc Ht), catching_query.
    cbn. rewrite (push_Some _ _ _ Hl). auto.
  - change (performIO 2 q false c)
      with (catching (compactPerformIOResult (performIO 1) q false c)).
    rewrite (compact_speculative _ _ _ _ Hl Hr), Ht. cbv zeta.
    rewrite Hk, Hw, Hc. cbn [andb negb].
    rewrite length_app. cbn [length].
    replace (S (length pre + S (length post)) =? 1)%nat with false
      by (symmetry; apply Nat.eqb_neq; lia).
    rewrite andb_false_r, andb_true_r, andb_false_r, orb_false_r.
    unfold skipContextOrQuery. rewrite Hc. cbn [andb].
    destruct (S (length pre + S (length post)) =? 2)%nat eqn:Hn.
    + apply Nat.eqb_eq in Hn.
      destruct pre; [|cbn in Hn; lia]. destruct post; [|cbn in Hn; lia].
      cbn [app catchUp] in *.
      assert (Hl2 : previousQueries (set_readyToExecuteTransaction true (push q c))
                    = Some [m; q]) by (rewrite (push_Some _ _ _ Hl); reflexivity).
      assert (Hp2 : previousContextComment [m; q] = Some (sql m))
        by (apply (previousContextComment_first [] m [q]); auto).
      destruct (rewritten_defined (sql m) _ _ _ Hp2 Hd) as [tm Htm].
      rewrite (replay_step 0 m _ _ Hl2 eq_refl), Htm, Hm.
      rewrite catching_query. cbn. rewrite (push_Some _ _ _ Hl). auto.
    + rewrite catching_query. cbn. rewrite (push_Some _ _ _ Hl). auto.
Qed.

(** C1 (amended): a write statement submitted on a session whose log
    holds context markers is sent with a comment whose payload is
    decoded from the first marker of the log, the one nothing but
    non-markers precede, whatever markers come after it. *)
Theorem C1_context_from_first_marker c pre m post q context :
  previousQueries c = Some (pre ++ m :: post)%list ->
  Forall (fun p => isContextComment (sql p) = false) pre ->
  isContextComment (sql m) = true ->
  sql m <> EmptyString ->
  sqlCommentToContext (sql m) = inr context ->
  isWriteQuery (sql q) = true ->
  isContextComment (sql q) = false ->
  isCommitQuery (sql q) = false ->
  previousContextComment (pre ++ m :: post) = Some (sql m) /\
  events (submit q c).2 =
    (events c ++
     [EvQuery (sql q +:+ " " +:+ contextToSqlComment (with_SQL (sql q) context))
        (fixArrayBufferValues (args q))])%list.
Proof.
  intros Hl Hpre Hm Hne Hd Hw Hc Hk. split.
  - now apply previousContextComment_first.
  - now apply (write_after_marker c pre m post q context).
Qed.

Lemma with_SQL_lookup text (context : Payload) :
  (context !! "SQL" = None -> with_SQL text context !! "SQL" = Some text) /\
  (forall v, context !! "SQL" = Some v -> with_SQL text context !! "SQL" = Some v) /\
  (forall k, k <> "SQL" -> with_SQL text context !! k = context !! k).
Proof.
  unfold with_SQL. repeat split.
  - intros H. rewrite lookup_union_r by exact H. apply lookup_singleton_eq.
  - intros v H. now apply lookup_union_Some_l.
  - intros k Hk. destruct (context !! k) as [v|] eqn:Hv.
    + now apply lookup_union_Some_l.
    + rewrite lookup_union_r by exact Hv. apply lookup_singleton_ne. congruence.
Qed.

(** ** The unmaterialized session, statement by statement *)

Lemma submit_speculative q c l :
  previousQueries c = Some l ->
  readyToExecuteTransaction c = false ->
  submit q c = catching (compactPerformIOResult (performIO 1) q false c).
Proof. reflexivity. Qed.

(** First statement, a [BEGIN]: withheld. *)
Lemma submit_begin_first q c :
  previousQueries c = Some [] ->
  readyToExecuteTransaction c = false ->
  isBeginQuery (sql q) = true ->
  submit q c = (Return (ok EMPTY_RESULT), push q c).
Proof.
  intros Hl Hr Hb. rewrite (submit_speculative _ _ _ Hl Hr).
  rewrite (compact_speculative _ _ _ _ Hl Hr), rewritten_no_context by reflexivity.
  cbv zeta. now rewrite Hb.
Qed.

(** Second statement, a context marker after a non-marker: withheld. *)
Lemma submit_marker_second b m c :
  previousQueries c = Some [b] ->
  readyToExecuteTransaction c = false ->
  isContextComment (sql b) = false ->
  isContextComment (sql m) = true ->
  submit m c = (Return (ok EMPTY_RESULT), push m c).
Proof.
  intros Hl Hr Hb Hm. rewrite (submit_speculative _ _ _ Hl Hr).
  assert (Hp : previousContextComment [b] = None)
    by (apply previousContextComment_none; auto).
  rewrite (compact_speculative _ _ _ _ Hl Hr), (rewritten_no_context _ _ Hp), Hp.
  cbv zeta. cbn [length Nat.eqb truthy_text]. rewrite Hm.
  rewrite !andb_false_r. cbn. unfold skipContextOrQuery. now rewrite Hm.
Qed.

(** Third statement, a write after [BEGIN] and a marker: sent, with
    the marker's context in its comment; the session stays
    unmaterialized. *)
Lemma submit_write_third b m w c context :
  previousQueries c = Some [b; m] ->
  readyToExecuteTransaction c = false ->
  isContextComment (sql b) = false ->
  isContextComment (sql m) = true ->
  sql m <> EmptyString ->
  sqlCommentToContext (sql m) = inr context ->
  isWriteQuery (sql w) = true ->
  isContextComment (sql w) = false ->
  let text := sql w +:+ " " +:+ contextToSqlComment (with_SQL (sql w) context) in
  submit w c =
    (answer (events c) text (args w),
     add_event (EvQuery text (fixArrayBufferValues (args w))) (push w c)).
Proof.
  intros Hl Hr Hb Hm Hne Hd Hw Hc text.
  rewrite (submit_speculative _ _ _ Hl Hr).
  assert (Hp : previousContextComment [b; m] = Some (sql m))
    by (apply (previousContextComment_first [b] m []); auto).
  rewrite (compact_speculative _ _ _ _ Hl Hr),
    (rewritten_write _ _ _ _ Hp Hne Hd Hw).
  cbv zeta. cbn [length Nat.eqb]. rewrite Hw.
  rewrite !andb_false_r. cbn [orb negb andb].
  unfold skipContextOrQuery. rewrite Hc. cbn [andb].
  rewrite catching_query. rewrite (push_Some _ _ _ Hl). reflexivity.
Qed.

(** Fourth statement, a [COMMIT] after [BEGIN], a marker and one more
    statement: withheld. *)
Lemma submit_commit_fourth b m w k c context :
  previousQueries c = Some [b; m; w] ->
  readyToExecuteTransaction c = false ->
  isContextComment (sql b) = false ->
  isContextComment (sql m) = true ->
  sql m <> EmptyString ->
  sqlCommentToContext (sql m) = inr context ->
  isCommitQuery (sql k) = true ->
  submit k c = (Return (ok EMPTY_RESULT), push k c).
Proof.
  intros Hl Hr Hb Hm Hne Hd Hk.
  rewrite (submit_speculative _ _ _ Hl Hr).
  assert (Hp : previousContextComment [b; m; w] = Some (sql m))
    by (apply (previousContextComment_first [b] m [w]); auto).
  destruct (rewritten_defined (sql k) _ _ _ Hp Hd) as [text Ht].
  rewrite (compact_speculative _ _ _ _ Hl Hr), Ht, Hp.
  cbv zeta. cbn [length Nat.eqb truthy_text]. rewrite Hk.
  destruct (String.eqb_spec (sql m) EmptyString) as [E|_]; [easy|].
  now rewrite andb_false_r.
Qed.

(** C4: the canonical session [BEGIN], context marker, one write
    statement, [COMMIT].  [BEGIN], marker and [COMMIT] each return the
    empty result; over the whole session the connection is asked
    exactly once, for the write statement with its comment. *)
Theorem C4_canonical_session conn b m w k context :
  isBeginQuery (sql b) = true ->
  isContextComment (sql b) = false ->
  isContextComment (sql m) = true ->
  sql m <> EmptyString ->
  sqlCommentToContext (sql m) = inr context ->
  isWriteQuery (sql w) = true ->
  isContextComment (sql w) = false ->
  isCommitQuery (sql k) = true ->
  let text := sql w +:+ " " +:+ contextToSqlComment (with_SQL (sql w) context) in
  submitAll [b; m; w; k] (transactionContext conn) =
    ([Return (ok EMPTY_RESULT); Return (ok EMPTY_RESULT);
      answer (events conn) text (args w); Return (ok EMPTY_RESULT)],
     mkClient (Some [b; m; w; k]) false
       (events conn ++ [EvQuery text (fixArrayBufferValues (args w))])%list).
Proof.
  intros Hb Hbc Hm Hne Hd Hw Hwc Hk text.
  cbn [submitAll].
  erewrite (submit_begin_first b); [|reflexivity|reflexivity|exact Hb].
  erewrite (submit_marker_second b m); [|reflexivity|reflexivity|exact Hbc|exact Hm].
  erewrite (submit_write_third b m w _ context); try eassumption; try reflexivity.
  erewrite (submit_commit_fourth b m w k _ context); try eassumption; reflexivity.
Qed.

Lemma answer_cases past text values :
  match answer past text values with
  | Return (ok result) => client_query past text (fixArrayBufferValues values) = inr result
  | Return (err error) =>
      exists e, client_query past text (fixArrayBufferValues values) = inl e /\
                databaseReported e = true
  | Throw e =>
      client_query past text (fixArrayBufferValues values) = inl e /\
      databaseReported e = false
  | Stuck => False
  end.
Proof.
  unfold answer, query_client. cbn.
  destruct (client_query past text (fixArrayBufferValues values)) as [e|r]; cbn; [|reflexivity].
  destruct (databaseReported e) eqn:He; cbn; eauto.
Qed.

(** Second statement, not a marker, after a withheld non-marker: the
    session materializes, the first statement is replayed, and then,
    unless the replay threw, the second statement is sent. *)
Lemma submit_other_second b q c :
  previousQueries c = Some [b] ->
  readyToExecuteTransaction c = false ->
  isContextComment (sql b) = false ->
  isContextComment (sql q) = false ->
  let c1 := add_event (EvQuery (sql b) (fixArrayBufferValues (args b)))
              (set_readyToExecuteTransaction true (push q c)) in
  submit q c =
    match answer (events c) (sql b) (args b) with
    | Throw e => (Throw e, c1)
    | _ => (answer (events c1) (sql q) (args q),
            add_event (EvQuery (sql q) (fixArrayBufferValues (args q))) c1)
    end.
Proof.
  intros Hl Hr Hb Hq c1.
  rewrite (submit_speculative _ _ _ Hl Hr).
  assert (Hp : previousContextComment [b] = None)
    by (apply previousContextComment_none; auto).
  assert (Hp2 : previousContextComment [b; q] = None)
    by (apply previousContextComment_none; auto).
  rewrite (compact_speculative _ _ _ _ Hl Hr), (rewritten_no_context _ _ Hp), Hp.
  cbv zeta. cbn [length Nat.eqb truthy_text]. rewrite Hq.
  rewrite !andb_false_r. cbn [orb negb andb catchUp].
  assert (Hl2 : previousQueries (set_readyToExecuteTransaction true (push q c))
                = Some [b; q]) by (rewrite (push_Some _ _ _ Hl); reflexivity).
  rewrite (replay_step 0 b _ _ Hl2 eq_refl), (rewritten_no_context _ _ Hp2), Hb.
  rewrite catching_query. fold c1.
  replace (events (set_readyToExecuteTransaction true (push q c))) with (events c)
    by (rewrite (push_Some _ _ _ Hl); reflexivity).
  pose proof (answer_cases (events c) (sql b) (args b)) as Ha.
  destruct (answer (events c) (sql b) (args b)) as [[r|error]|e|]; cbn [catching];
    try (unfold skipContextOrQuery; rewrite Hq; cbn [andb]; apply catching_query);
    try easy.
  destruct Ha as [_ He]. unfold catching. now rewrite He.
Qed.

(** When the replayed statement is answered with a database error,
    nobody sees it: the caller gets the answer to the second statement. *)
Lemma replayed_error_dropped b q c error :
  previousQueries c = Some [b] ->
  readyToExecuteTransaction c = false ->
  isContextComment (sql b) = false ->
  isContextComment (sql q) = false ->
  answer (events c) (sql b) (args b) = Return (err error) ->
  let c1 := add_event (EvQuery (sql b) (fixArrayBufferValues (args b)))
              (set_readyToExecuteTransaction true (push q c)) in
  submit q c =
    (answer (events c1) (sql q) (args q),
     add_event (EvQuery (sql q) (fixArrayBufferValues (args q))) c1).
Proof.
  intros Hl Hr Hb Hq Ha c1.
  rewrite (submit_other_second b q c Hl Hr Hb Hq), Ha. reflexivity.
Qed.

(** C5: a session that opens with a withheld [BEGIN] and goes on with
    a statement that is no context marker.  While that second
    statement is processed the flag becomes true and the connection is
    asked for [BEGIN] first; the second statement follows it, unless
    the replayed [BEGIN] threw a failure that is not a database error,
    which ends the call. *)
Theorem C5_begin_before_second_statement conn b q :
  isBeginQuery (sql b) = true ->
  isContextComment (sql b) = false ->
  isContextComment (sql q) = false ->
  let c1 := (submit b (transactionContext conn)).2 in
  let c2 := (submit q c1).2 in
  (submit b (transactionContext conn)).1 = Return (ok EMPTY_RESULT) /\
  events c1 = events conn /\
  readyToExecuteTransaction c1 = false /\
  readyToExecuteTransaction c2 = true /\
  exists rest,
    events c2 = (events conn ++ EvQuery (sql b) (fixArrayBufferValues (args b)) :: rest)%list /\
    match answer (events conn) (sql b) (args b) with
    | Throw e => rest = [] /\ (submit q c1).1 = Throw e
    | _ => rest = [EvQuery (sql q) (fixArrayBufferValues (args q))]
    end.
Proof.
  intros Hb Hbc Hq.
  erewrite (submit_begin_first b); [|reflexivity|reflexivity|exact Hb]. cbn [fst snd].
  repeat (split; [reflexivity|]).
  erewrite (submit_other_second b q); [|reflexivity|reflexivity|exact Hbc|exact Hq].
  cbn [events push transactionContext set_previousQueries
       set_readyToExecuteTransaction previousQueries].
  destruct (answer (events conn) (sql b) (args b)) as [[r|error]|e|]; cbn.
  1,2: split; [reflexivity|]; eexists; split; [rewrite <- app_assoc|]; reflexivity.
  - split; [reflexivity|]. exists []. auto.
  - split; [reflexivity|]; eexists; split; [rewrite <- app_assoc|]; reflexivity.
Qed.

(** ** The flag *)

Lemma catching_state r : (catching r).2 = r.2.
Proof. destruct r as [[v|e|] c]; cbn; [reflexivity| |reflexivity]. now destruct (databaseReported e). Qed.

Lemma query_client_ready text values c :
  readyToExecuteTransaction (query_client text values c).2 = readyToExecuteTransaction c.
Proof. unfold query_client. now destruct client_query. Qed.

Lemma push_ready q c : readyToExecuteTransaction (push q c) = readyToExecuteTransaction c.
Proof. unfold push. now destruct (previousQueries c). Qed.

Lemma performIO_keeps_ready fuel q cu c :
  readyToExecuteTransaction c = true ->
  readyToExecuteTransaction (performIO fuel q cu c).2 = true.
Proof.
  intros Hr. destruct fuel as [|n]; [exact Hr|].
  cbn [performIO]. rewrite catching_state.
  destruct (previousQueries c) as [l|] eqn:Hl.
  - rewrite (compact_ready _ _ _ _ _ Hl Hr).
    assert (Hc1 : readyToExecuteTransaction (if cu then c else push q c) = true)
      by (destruct cu; [exact Hr|now rewrite push_ready]).
    destruct (rewritten (sql q) l); [exact Hr|].
    unfold skipContextOrQuery. destruct (_ && _); [exact Hc1|].
    now rewrite query_client_ready.
  - rewrite (compact_pool _ _ _ _ Hl). now rewrite query_client_ready.
Qed.

(** C6: the flag is false when the session is created; no call of
    [performIO], at any depth, and neither [commit] nor [rollback]
    turns a true flag false; and once it is true a submitted [BEGIN]
    or [COMMIT] is sent to the connection as it is, the caller getting
    the connection's answer. *)
Theorem C6_materialization_monotonic :
  (forall conn, readyToExecuteTransaction (transactionContext conn) = false) /\
  (forall fuel q cu c,
      readyToExecuteTransaction c = true ->
      readyToExecuteTransaction (performIO fuel q cu c).2 = true) /\
  (forall c,
      readyToExecuteTransaction (commit c).2 = readyToExecuteTransaction c /\
      readyToExecuteTransaction (rollback c).2 = readyToExecuteTransaction c) /\
  (forall q c l,
      previousQueries c = Some l ->
      readyToExecuteTransaction c = true ->
      isBeginQuery (sql q) = true \/ isCommitQuery (sql q) = true ->
      isContextComment (sql q) = false ->
      isWriteQuery (sql q) = false ->
      (submit q c).1 = answer (events c) (sql q) (args q) /\
      events (submit q c).2 =
        (events c ++ [EvQuery (sql q) (fixArrayBufferValues (args q))])%list).
Proof.
  split; [reflexivity|]. split; [apply performIO_keeps_ready|].
  split; [intros c; split; reflexivity|].
  intros q c l Hl Hr _ Hc Hw. unfold submit.
  rewrite (performIO_ready_query _ _ _ _ _ Hl Hr Hc (rewritten_plain _ _ Hw)).
  rewrite catching_query. cbn. rewrite (push_Some _ _ _ Hl). auto.
Qed.

(** ** Context markers *)

(** C7 (amended): a context marker is never sent to the connection.
    Replayed, it returns the empty result and touches nothing.
    Submitted, it returns the empty result and is only logged, with
    two exceptions.  As third statement of an unmaterialized session
    (and no write statement) it triggers the replay of the two
    statements before it: the connection is asked for those of them
    that are no markers, and the call returns the empty result unless
    the replay throws, which the caller then sees.  And when the text
    of the marker cannot be built (it also classifies as a write
    statement and the decoder throws on the prior marker), the caller
    gets what the decoder threw and the session is left as it was. *)
Theorem C7_marker_never_forwarded c l q :
  previousQueries c = Some l ->
  isContextComment (sql q) = true ->
  (readyToExecuteTransaction c = true ->
   forall n, performIO (S n) q true c =
     match rewritten (sql q) l with
     | inr _ => (Return (ok EMPTY_RESULT), c)
     | inl e => catching (Throw e, c)
     end) /\
  (forall e, rewritten (sql q) l = inl e -> submit q c = catching (Throw e, c)) /\
  (forall text,
      rewritten (sql q) l = inr text ->
      readyToExecuteTransaction c = true \/ length l <> 2 \/ isWriteQuery (sql q) = true ->
      submit q c = (Return (ok EMPTY_RESULT), push q c)) /\
  (forall text,
      rewritten (sql q) l = inr text ->
      readyToExecuteTransaction c = false ->
      length l = 2 ->
      isWriteQuery (sql q) = false ->
      exists r c' evs,
        submit q c = (r, c') /\
        previousQueries c' = Some (l ++ [q])%list /\
        readyToExecuteTransaction c' = true /\
        events c' = (events c ++ evs)%list /\
        Forall (fun ev => exists p, In p l /\ replayOf (l ++ [q]) p ev) evs /\
        (r = Return (ok EMPTY_RESULT) \/
         exists e, r = Throw e /\ databaseReported e = false)).
Proof.
  intros Hl Hc. split; [|split; [|split]].
  - intros Hr n. rewrite (replay_step n q c l Hl Hr).
    destruct (rewritten (sql q) l); [reflexivity|]. now rewrite Hc.
  - intros e Ht. unfold submit.
    change (performIO 2 q false c)
      with (catching (compactPerformIOResult (performIO 1) q false c)).
    unfold compactPerformIOResult. now rewrite Hl, Ht.
  - intros text Ht H. destruct (readyToExecuteTransaction c) eqn:Hr.
    + unfold submit.
      change (performIO 2 q false c)
        with (catching (compactPerformIOResult (performIO 1) q false c)).
      rewrite (compact_ready _ _ _ _ _ Hl Hr), Ht.
      unfold skipContextOrQuery. now rewrite Hc.
    + assert (Hn : (S (length l) =? 3)%nat && negb (isWriteQuery (sql q)) = false).
      { destruct H as [H|[H|H]]; [discriminate| |].
        - replace (S (length l) =? 3)%nat with false
            by (symmetry; apply Nat.eqb_neq; lia). reflexivity.
        - rewrite H. apply andb_false_r. }
      rewrite (submit_speculative _ _ _ Hl Hr).
      rewrite (compact_speculative _ _ _ _ Hl Hr), Ht.
      cbv zeta. rewrite Hn, Hc. cbn [negb].
      rewrite !andb_false_r. cbn [orb].
      unfold skipContextOrQuery. rewrite Hc. cbn [andb].
      repeat match goal with
             | |- context [if ?b then _ else _] => destruct b
             end; reflexivity.
  - intros text Ht Hr Hn Hw.
    rewrite (submit_speculative _ _ _ Hl Hr).
    rewrite (compact_speculative _ _ _ _ Hl Hr), Ht.
    cbv zeta. rewrite Hc, Hw, Hn. cbn [negb Nat.eqb andb orb].
    rewrite !andb_false_r.
    assert (Hl2 : previousQueries (set_readyToExecuteTransaction true (push q c))
                  = Some (l ++ [q])%list) by (rewrite (push_Some _ _ _ Hl); reflexivity).
    destruct (catchUp_effect 0 l _ _ Hl2 eq_refl)
      as (r & c' & evs & -> & Hl' & Hr' & Hev & Hall & Hres).
    replace (events (set_readyToExecuteTransaction true (push q c))) with (events c)
      in Hev by (rewrite (push_Some _ _ _ Hl); reflexivity).
    destruct Hres as [->|[e [-> He]]].
    + unfold skipContextOrQuery. rewrite Hc. cbn.
      exists (Return (ok EMPTY_RESULT)), c', evs. repeat split; auto.
    + unfold catching. rewrite He.
      exists (Throw e), c', evs. repeat split; eauto.
Qed.

(** ** After [commit] and [rollback] *)

(** C10: [commit] and [rollback] each return success and ask the
    connection for one thing, its release; they send no statement,
    leave the log and the flag alone, and do the same again when
    called again. *)
Theorem C10_commit_rollback_release c :
  commit c = (Return (ok tt), release c) /\
  rollback c = (Return (ok tt), release c) /\
  events (release c) = (events c ++ [EvRelease])%list /\
  previousQueries (release c) = previousQueries c /\
  readyToExecuteTransaction (release c) = readyToExecuteTransaction c /\
  events (commit (commit c).2).2 = (events c ++ [EvRelease; EvRelease])%list /\
  events (rollback (rollback c).2).2 = (events c ++ [EvRelease; EvRelease])%list /\
  events (rollback (commit c).2).2 = (events c ++ [EvRelease; EvRelease])%list.
Proof.
  repeat split; cbn; now rewrite <- app_assoc.
Qed.

Lemma rebase_push past q c : push q (rebase past c) = rebase past (push q c).
Proof.
  destruct c as [[l|] ready past0]; reflexivity.
Qed.

Lemma rebase_add_event past ev c : add_event ev (rebase past c) = rebase past (add_event ev c).
Proof. unfold add_event, rebase. cbn. now rewrite app_assoc. Qed.

Lemma alike_catching past1 past2 x1 x2 :
  alike past1 past2 x1 x2 -> alike past1 past2 (catching x1) (catching x2).
Proof.
  intros (r & c' & -> & ->). unfold alike, catching.
  destruct r as [v|e|]; eauto. destruct (databaseReported e); eauto.
Qed.

(** The adapter looks at the history of the connection only through
    the connection's answers: on two connections that answer alike,
    whatever they were asked before, the same call on the same log and
    flag ends alike. *)
Lemma performIO_alike (D1 D2 : PgDriver) past1 past2 :
  (forall since text values,
      @client_query D1 (past1 ++ since)%list text values =
      @client_query D2 (past2 ++ since)%list text values) ->
  (forall values, @fixArrayBufferValues D1 values = @fixArrayBufferValues D2 values) ->
  forall n q cu c,
    alike past1 past2 (@performIO U D1 n q cu (rebase past1 c))
                      (@performIO U D2 n q cu (rebase past2 c)).
Proof.
  intros Hq Hf.
  assert (Hquery : forall text values c,
    alike past1 past2 (@query_client D1 text values (rebase past1 c))
                      (@query_client D2 text values (rebase past2 c))).
  { intros text values c. unfold query_client. cbn [events rebase].
    rewrite Hq, Hf, !rebase_add_event.
    destruct (@client_query D2 (past2 ++ events c)%list text
                (@fixArrayBufferValues D2 values)); unfold alike; eauto. }
  assert (Hskip : forall b s text values c,
    alike past1 past2 (@skipContextOrQuery U D1 b s text values (rebase past1 c))
                      (@skipContextOrQuery U D2 b s text values (rebase past2 c))).
  { intros. unfold skipContextOrQuery. destruct (_ && _); [unfold alike; eauto|apply Hquery]. }
  induction n as [|n IH]; intros q cu c.
  - cbn. unfold alike. eauto.
  - cbn [performIO]. apply alike_catching.
    assert (Hloop : forall ps c0,
      alike past1 past2 (@catchUp (@performIO U D1 n) ps (rebase past1 c0))
                        (@catchUp (@performIO U D2 n) ps (rebase past2 c0))).
    { induction ps as [|p ps IHps]; intros c0; cbn [catchUp].
      - unfold alike. eauto.
      - destruct (IH p true c0) as (r & c1 & -> & ->).
        destruct r; [apply IHps|unfold alike; eauto|unfold alike; eauto]. }
    unfold compactPerformIOResult. cbn [previousQueries readyToExecuteTransaction rebase].
    destruct (previousQueries c) as [before|] eqn:Hl; [|apply Hskip].
    destruct (rewritten (sql q) before); [unfold alike; eauto|].
    assert (Hc1 : forall P, (if cu then rebase P c else push q (rebase P c))
                            = rebase P (if cu then c else push q c))
      by (intros P; destruct cu; [reflexivity|apply rebase_push]).
    rewrite !Hc1.
    destruct (negb (readyToExecuteTransaction c)); [|apply Hskip].
    repeat match goal with
           | |- alike _ _ (if ?b then _ else _) _ => destruct b
           end; try (unfold alike; now eauto); try apply Hskip.
    change (set_readyToExecuteTransaction true (rebase past1 (if cu then c else push q c)))
      with (rebase past1 (set_readyToExecuteTransaction true (if cu then c else push q c))).
    change (set_readyToExecuteTransaction true (rebase past2 (if cu then c else push q c)))
      with (rebase past2 (set_readyToExecuteTransaction true (if cu then c else push q c))).
    match goal with
    | |- context [@catchUp _ ?ps (rebase past1 ?c0)] =>
        destruct (Hloop ps c0) as (r & c2 & -> & ->)
    end.
    destruct r; [apply Hskip|unfold alike; eauto|unfold alike; eauto].
Qed.

(** C8 (amended): the adapter keeps no closed state.  [commit] and
    [rollback] leave the log and the flag as they are and only add the
    release to what the connection was asked.  A statement submitted
    afterwards goes through the same decisions as before the close, on
    any session and for any statement: if the connection answers the
    same after the release as it would have without it, the submission
    ends as it would have before the close, with the same completion,
    log, flag and new requests.  In particular, on a materialized
    session a statement that is neither marker nor write is sent to the
    released connection, and the caller gets whatever that connection
    answers.  No error of the adapter's own is ever produced. *)
Theorem C8_submission_after_close q c closed :
  closed = (commit c).2 \/ closed = (rollback c).2 ->
  previousQueries closed = previousQueries c /\
  readyToExecuteTransaction closed = readyToExecuteTransaction c /\
  events closed = (events c ++ [EvRelease])%list /\
  ((forall since text values,
       client_query (events c ++ EvRelease :: since)%list text values =
       client_query (events c ++ since)%list text values) ->
   exists r c',
     submit q c = (r, rebase (events c) c') /\
     submit q closed = (r, rebase (events c ++ [EvRelease]) c')) /\
  (forall l,
      previousQueries c = Some l ->
      readyToExecuteTransaction c = true ->
      isContextComment (sql q) = false ->
      isWriteQuery (sql q) = false ->
      (submit q closed).1 = answer (events c ++ [EvRelease]) (sql q) (args q) /\
      events (submit q closed).2 =
        (events c ++ [EvRelease; EvQuery (sql q) (fixArrayBufferValues (args q))])%list).
Proof.
  intros Hclosed.
  assert (closed = release c) as -> by (destruct Hclosed; assumption).
  split; [reflexivity|]. split; [reflexivity|]. split; [reflexivity|]. split.
  - intros Hsame.
    pose (c0 := mkClient (previousQueries c) (readyToExecuteTransaction c) []).
    assert (Hc : c = rebase (events c) c0)
      by (destruct c; unfold rebase, c0; cbn; now rewrite app_nil_r).
    assert (Hrel : release c = rebase (events c ++ [EvRelease]) c0)
      by (unfold release, add_event, rebase, c0; cbn; now rewrite app_nil_r).
    destruct (performIO_alike D D (events c) (events c ++ [EvRelease])%list) with
      (n := 2) (q := q) (cu := false) (c := c0) as (r & c' & H1 & H2).
    + intros since text values. rewrite <- app_assoc. cbn. symmetry. apply Hsame.
    + reflexivity.
    + exists r, c'. unfold submit. rewrite Hrel, H2. rewrite Hc at 1. rewrite H1.
      auto.
  - intros l Hl Hr Hc Hw. unfold submit.
    rewrite (performIO_ready_query 1 q (release c) l (sql q) Hl Hr Hc (rewritten_plain _ _ Hw)).
    rewrite catching_query. cbn.
    rewrite (push_Some q (release c) l Hl). cbn. now rewrite <- app_assoc.
Qed.

(** ** Failures of the connection *)



End Facts.

(** ** More of the adapter *)

Section Coverage.
Context `{U : PgUtils} `{D : PgDriver}.

Implicit Types (c : Client) (q : Query) (l : list Query).

Lemma withheld_not_triggers text l : withheld text l = true -> triggers text l = false.
Proof.
  unfold withheld, triggers. intros H.
  destruct l as [|? [|? [|? [|? ?]]]]; cbn in *;
    rewrite ?andb_false_r in *; cbn in *; try discriminate; reflexivity.
Qed.

Lemma triggers_length text l : triggers text l = true -> length l = 1 \/ length l = 2.
Proof.
  unfold triggers. destruct l as [|? [|? [|? ?]]]; cbn; auto; discriminate.
Qed.

(** One replayed call: at most one request. *)
Lemma replay_step_bound n q c l :
  previousQueries c = Some l ->
  readyToExecuteTransaction c = true ->
  exists r c' evs,
    performIO (S n) q true c = (r, c') /\
    previousQueries c' = Some l /\
    readyToExecuteTransaction c' = true /\
    events c' = (events c ++ evs)%list /\
    length evs <= 1 /\
    Forall (fun ev => isQuery ev = true) evs /\
    r <> Stuck.
Proof.
  intros Hl Hr. rewrite (replay_step n q c l Hl Hr).
  destruct (rewritten (sql q) l) as [e|text].
  - exists (catching (Throw e, c)).1, c, [].
    destruct (catching_throw e c) as [[error ->]|[-> He]]; cbn;
      rewrite app_nil_r; repeat split; auto; discriminate.
  - destruct (isContextComment (sql q)).
    + exists (Return (ok EMPTY_RESULT)), c, []. rewrite app_nil_r.
      repeat split; auto; discriminate.
    + rewrite catching_query.
      eexists _, _, [_]. repeat split; try reflexivity; auto.
      pose proof (answer_cases (events c) text (args q)) as Ha.
      intros E. now rewrite E in Ha.
Qed.

Lemma catchUp_bound n ps c l :
  previousQueries c = Some l ->
  readyToExecuteTransaction c = true ->
  exists r c' evs,
    catchUp (performIO (S n)) ps c = (r, c') /\
    previousQueries c' = Some l /\
    readyToExecuteTransaction c' = true /\
    events c' = (events c ++ evs)%list /\
    length evs <= length ps /\
    Forall (fun ev => isQuery ev = true) evs /\
    r <> Stuck.
Proof.
  revert c. induction ps as [|p ps IH]; intros c Hl Hr.
  - exists (Return tt), c, []. rewrite app_nil_r. repeat split; auto; discriminate.
  - cbn [catchUp].
    destruct (replay_step_bound n p c l Hl Hr)
      as (r & c1 & evs1 & -> & Hl1 & Hr1 & Hev1 & Hn1 & Hall1 & Hs1).
    destruct r as [v|e|]; [|clear IH|easy].
    + destruct (IH c1 Hl1 Hr1) as (r2 & c2 & evs2 & -> & Hl2 & Hr2 & Hev2 & Hn2 & Hall2 & Hs2).
      exists r2, c2, (evs1 ++ evs2)%list. repeat split; auto.
      * now rewrite Hev2, Hev1, app_assoc.
      * rewrite length_app. cbn [length]. lia.
      * now apply Forall_app.
    + exists (Throw e), c1, evs1. repeat split; auto; try (cbn [length]; lia); try easy.
Qed.

(** What one submission does to an unmaterialized session, in every
    case where the text of the statement could be built. *)
Lemma submit_speculative_effect q c l text :
  previousQueries c = Some l ->
  readyToExecuteTransaction c = false ->
  rewritten (sql q) l = inr text ->
  exists r c' evs,
    submit q c = (r, c') /\
    previousQueries c' = Some (l ++ [q])%list /\
    readyToExecuteTransaction c' = triggers (sql q) l /\
    events c' = (events c ++ evs)%list /\
    length evs <= 3 /\
    Forall (fun ev => isQuery ev = true) evs /\
    (withheld (sql q) l = true -> evs = [] /\ r = Return (ok EMPTY_RESULT)).
Proof.
  intros Hl Hr Ht.
  rewrite (submit_speculative _ _ _ Hl Hr), (compact_speculative _ _ _ _ Hl Hr), Ht.
  cbv zeta.
  assert (Hp : push q c = mkClient (Some (l ++ [q])%list) false (events c))
    by (rewrite (push_Some _ _ _ Hl), Hr; reflexivity).
  assert (Hskip : forall c0,
    exists r evs,
      catching (skipContextOrQuery true (sql q) text (args q) c0) =
        (r, mkClient (previousQueries c0) (readyToExecuteTransaction c0)
              (events c0 ++ evs)%list) /\
      length evs <= 1 /\ Forall (fun ev => isQuery ev = true) evs).
  { intros c0. unfold skipContextOrQuery. cbn [andb].
    destruct (isContextComment (sql q)).
    - exists (Return (ok EMPTY_RESULT)), []. rewrite app_nil_r. destruct c0; auto.
    - rewrite catching_query. eexists _, [_]. repeat split; auto. }
  pose proof (withheld_not_triggers (sql q) l) as Hwt.
  unfold withheld in *. fold (triggers (sql q) l).
  destruct (isBeginQuery (sql q) && (S (length l) =? 1)%nat).
  { rewrite Hwt by reflexivity. rewrite Hp.
    exists (Return (ok EMPTY_RESULT)), (mkClient (Some (l ++ [q])%list) false (events c)), [].
    cbn. rewrite app_nil_r. repeat split; auto. }
  cbn [orb] in *.
  destruct (isCommitQuery (sql q) && truthy_text (previousContextComment l)
            && (S (length l) =? 4)%nat).
  { rewrite Hwt by reflexivity. rewrite Hp.
    exists (Return (ok EMPTY_RESULT)), (mkClient (Some (l ++ [q])%list) false (events c)), [].
    cbn. rewrite app_nil_r. repeat split; auto. }
  clear Hwt.
  destruct (triggers (sql q) l) eqn:Htr.
  - assert (Hl2 : previousQueries (set_readyToExecuteTransaction true (push q c))
                  = Some (l ++ [q])%list) by (rewrite Hp; reflexivity).
    destruct (catchUp_bound 0 l _ _ Hl2 eq_refl)
      as (r1 & c1 & evs1 & -> & Hl1 & Hr1 & Hev1 & Hn1 & Hall1 & Hs1).
    rewrite Hp in Hev1. cbn in Hev1.
    pose proof (triggers_length _ _ Htr) as Hlen.
    destruct r1 as [v|e|]; [| |easy].
    + destruct (Hskip c1) as (r & evs & -> & Hn & Hall).
      eexists _, _, (evs1 ++ evs)%list. split; [reflexivity|]. cbn.
      rewrite Hl1, Hr1, Hev1, <- app_assoc, length_app.
      repeat split; auto; try lia; try (now apply Forall_app); try easy.
    + exists (catching (Throw e, c1)).1, c1, evs1.
      destruct (catching_throw e c1) as [[error ->]|[-> _]]; cbn;
        repeat split; auto; try lia; try easy.
  - destruct (Hskip (push q c)) as (r & evs & -> & Hn & Hall).
    rewrite Hp. cbn.
    eexists _, _, evs. repeat split; auto; try lia; try easy.
Qed.

(** A statement whose text cannot be built (the decoder threw): the
    session is left as it was. *)
Lemma submit_decode_failure q c l e :
  previousQueries c = Some l ->
  rewritten (sql q) l = inl e ->
  submit q c = catching (Throw e, c).
Proof.
  intros Hl Ht. unfold submit.
  change (performIO 2 q false c)
    with (catching (compactPerformIOResult (performIO 1) q false c)).
  unfold compactPerformIOResult. now rewrite Hl, Ht.
Qed.

Lemma submit_ready_effect q c l text :
  previousQueries c = Some l ->
  readyToExecuteTransaction c = true ->
  rewritten (sql q) l = inr text ->
  exists r evs,
    submit q c = (r, mkClient (Some (l ++ [q])%list) true (events c ++ evs)%list) /\
    length evs <= 1 /\
    Forall (fun ev => isQuery ev = true) evs.
Proof.
  intros Hl Hr Ht. unfold submit.
  change (performIO 2 q false c)
    with (catching (compactPerformIOResult (performIO 1) q false c)).
  rewrite (compact_ready _ _ _ _ _ Hl Hr), Ht, (push_Some _ _ _ Hl), Hr.
  unfold skipContextOrQuery. cbn [andb].
  destruct (isContextComment (sql q)).
  - exists (Return (ok EMPTY_RESULT)), []. cbn. rewrite app_nil_r. auto.
  - rewrite catching_query. eexists _, [_]. repeat split; auto.
Qed.

(** X1: on a pool, outside any transaction, every statement is sent to
    the connection as it is, [BEGIN], [COMMIT] and context markers
    included; the caller gets the connection's answer, [executeRaw] the
    row count of the result, or 0 when the result has none. *)
Theorem X1_pool_passthrough q c :
  previousQueries c = None ->
  submit q c = (answer (events c) (sql q) (args q), add_event (verbatim q) c) /\
  forall result,
    client_query (events c) (sql q) (fixArrayBufferValues (args q)) = inr result ->
    executeRaw q c =
      (Return (ok (match rowCount result with Some n => n | None => 0%Z end)),
       add_event (verbatim q) c).
Proof.
  intros Hl.
  assert (Hs : submit q c = (answer (events c) (sql q) (args q), add_event (verbatim q) c)).
  { unfold submit. cbn [performIO]. rewrite (compact_pool _ _ _ _ Hl).
    apply catching_query. }
  split; [exact Hs|]. intros result Hres.
  unfold executeRaw. rewrite Hs.
  unfold answer, query_client. cbn. rewrite Hres. reflexivity.
Qed.

Lemma submit_log q c l :
  previousQueries c = Some l ->
  previousQueries (submit q c).2 =
    Some (match rewritten (sql q) l with
          | inr _ => (l ++ [q])%list
          | inl _ => l
          end).
Proof.
  intros Hl. destruct (rewritten (sql q) l) as [e|text] eqn:Ht.
  - rewrite (submit_decode_failure _ _ _ _ Hl Ht), catching_state. exact Hl.
  - destruct (readyToExecuteTransaction c) eqn:Hr.
    + destruct (submit_ready_effect _ _ _ _ Hl Hr Ht) as (r & evs & -> & _). reflexivity.
    + destruct (submit_speculative_effect _ _ _ _ Hl Hr Ht)
        as (r & c' & evs & -> & Hl' & _). exact Hl'.
Qed.

(** X2: the log of a session only grows, at its end.  One submission
    appends the statement (or leaves the log alone, when the text of
    the statement could not be built); a run of submissions appends a
    subsequence of the statements, in their order; a replayed call
    appends nothing. *)
Theorem X2_log_only_grows :
  (forall q c l,
      previousQueries c = Some l ->
      previousQueries (submit q c).2 =
        Some (match rewritten (sql q) l with
              | inr _ => (l ++ [q])%list
              | inl _ => l
              end)) /\
  (forall qs c l,
      previousQueries c = Some l ->
      exists added,
        previousQueries (submitAll qs c).2 = Some (l ++ added)%list /\
        sublist added qs) /\
  (forall n q c l,
      previousQueries c = Some l ->
      readyToExecuteTransaction c = true ->
      previousQueries (performIO (S n) q true c).2 = Some l).
Proof.
  split; [exact submit_log|]. split.
  - induction qs as [|q qs IH]; intros c l Hl.
    + exists []. rewrite app_nil_r. split; [exact Hl|constructor].
    + cbn [submitAll].
      pose proof (submit_log q c l Hl) as H1.
      destruct (submit q c) as [r c1]. cbn [snd] in H1.
      destruct (IH c1 _ H1) as (added & H2 & Hsub).
      destruct (submitAll qs c1) as [rs c2]. cbn [snd] in *.
      destruct (rewritten (sql q) l).
      * exists added. split; [exact H2|]. now apply sublist_cons.
      * exists (q :: added). split; [now rewrite H2, <- app_assoc|].
        now apply sublist_skip.
  - intros n q c l Hl Hr.
    destruct (replay_step_bound n q c l Hl Hr) as (r & c' & evs & -> & Hl' & _).
    exact Hl'.
Qed.

(** X3: one submission adds to what the connection was asked before,
    never removes from it; it adds at most three requests (two replayed
    statements and its own), one at most on a pool or on a materialized
    session, and none of them is a release. *)
Theorem X3_submission_traffic q c :
  exists evs,
    events (submit q c).2 = (events c ++ evs)%list /\
    length evs <= 3 /\
    Forall (fun ev => isQuery ev = true) evs /\
    (previousQueries c = None \/ readyToExecuteTransaction c = true -> length evs <= 1).
Proof.
  destruct (previousQueries c) as [l|] eqn:Hl.
  - destruct (rewritten (sql q) l) as [e|text] eqn:Ht.
    + exists []. rewrite (submit_decode_failure _ _ _ _ Hl Ht), catching_state.
      cbn. rewrite app_nil_r. repeat split; auto.
    + destruct (readyToExecuteTransaction c) eqn:Hr.
      * destruct (submit_ready_effect _ _ _ _ Hl Hr Ht) as (r & evs & -> & Hn & Hall).
        exists evs. cbn. repeat split; auto; lia.
      * destruct (submit_speculative_effect _ _ _ _ Hl Hr Ht)
          as (r & c' & evs & -> & _ & _ & Hev & Hn & Hall & _).
        exists evs. cbn. repeat split; auto; try (intros [H|H]; discriminate H).
  - exists [verbatim q]. unfold submit. cbn [performIO].
    rewrite (compact_pool _ _ _ _ Hl), catching_query. cbn. repeat split; auto.
Qed.

Lemma speculative_flag q c l :
  previousQueries c = Some l ->
  readyToExecuteTransaction c = false ->
  readyToExecuteTransaction (submit q c).2 =
    match rewritten (sql q) l with
    | inr _ => triggers (sql q) l
    | inl _ => false
    end.
Proof.
  intros Hl Hr. destruct (rewritten (sql q) l) as [e|text] eqn:Ht.
  - rewrite (submit_decode_failure _ _ _ _ Hl Ht), catching_state. exact Hr.
  - destruct (submit_speculative_effect _ _ _ _ Hl Hr Ht)
      as (r & c' & evs & -> & _ & Hr' & _). exact Hr'.
Qed.

(** X4: an unmaterialized session materializes exactly when the text
    of the submitted statement can be built and the statement is either
    the second of the session and no context marker, or the third and
    no write statement.  At no other position does it materialize. *)
Theorem X4_materialization_window q c l :
  previousQueries c = Some l ->
  readyToExecuteTransaction c = false ->
  readyToExecuteTransaction (submit q c).2 = true <->
  (exists text, rewritten (sql q) l = inr text) /\
  ((length l = 1 /\ isContextComment (sql q) = false) \/
   (length l = 2 /\ isWriteQuery (sql q) = false)).
Proof.
  intros Hl Hr. rewrite (speculative_flag q c l Hl Hr).
  destruct (rewritten (sql q) l) as [e|text].
  - split; [discriminate|]. intros [[text H] _]. discriminate H.
  - unfold triggers. split.
    + intros H. split; [eauto|].
      destruct l as [|? [|? [|? ?]]]; cbn in *; try discriminate.
      * left. split; [reflexivity|]. now destruct (isContextComment (sql q)).
      * right. split; [reflexivity|]. now destruct (isWriteQuery (sql q)).
    + intros [_ [[Hn Hc]|[Hn Hw]]].
      * destruct l as [|? [|? ?]]; try discriminate Hn. cbn. now rewrite Hc.
      * destruct l as [|? [|? [|? ?]]]; try discriminate Hn. cbn. now rewrite Hw.
Qed.

Lemma speculative_shape_step q c l :
  previousQueries c = Some l ->
  (readyToExecuteTransaction c = false ->
   (forall p, l !! 1 = Some p -> isContextComment (sql p) = true) /\
   (forall p, l !! 2 = Some p -> isWriteQuery (sql p) = true)) ->
  exists l',
    previousQueries (submit q c).2 = Some l' /\
    (readyToExecuteTransaction (submit q c).2 = false ->
     (forall p, l' !! 1 = Some p -> isContextComment (sql p) = true) /\
     (forall p, l' !! 2 = Some p -> isWriteQuery (sql p) = true)).
Proof.
  intros Hl Hinv. eexists. split; [apply (submit_log q c l Hl)|].
  destruct (readyToExecuteTransaction c) eqn:Hr.
  { intros H. unfold submit in H. now rewrite performIO_keeps_ready in H. }
  rewrite (speculative_flag q c l Hl Hr).
  destruct (Hinv eq_refl) as [H1 H2].
  destruct (rewritten (sql q) l); [auto|].
  unfold triggers. intros Htr.
  destruct l as [|p0 [|p1 [|p2 l]]]; cbn in *.
  - split; intros p Hp; discriminate Hp.
  - rewrite orb_false_r in Htr. split; intros p Hp; [|discriminate Hp].
    injection Hp as <-. now destruct (isContextComment (sql q)).
  - split; intros p Hp; [auto|]. injection Hp as <-.
    now destruct (isWriteQuery (sql q)).
  - split; intros p Hp; auto.
Qed.

(** X5: whatever is submitted on a session, as long as it is
    unmaterialized the second statement of its log is a context marker
    and the third a write statement. *)
Theorem X5_speculative_log_shape qs conn :
  let c := (submitAll qs (transactionContext conn)).2 in
  readyToExecuteTransaction c = false ->
  exists l,
    previousQueries c = Some l /\
    (forall p, l !! 1 = Some p -> isContextComment (sql p) = true) /\
    (forall p, l !! 2 = Some p -> isWriteQuery (sql p) = true).
Proof.
  assert (H : forall qs c l,
    previousQueries c = Some l ->
    (readyToExecuteTransaction c = false ->
     (forall p, l !! 1 = Some p -> isContextComment (sql p) = true) /\
     (forall p, l !! 2 = Some p -> isWriteQuery (sql p) = true)) ->
    exists l',
      previousQueries (submitAll qs c).2 = Some l' /\
      (readyToExecuteTransaction (submitAll qs c).2 = false ->
       (forall p, l' !! 1 = Some p -> isContextComment (sql p) = true) /\
       (forall p, l' !! 2 = Some p -> isWriteQuery (sql p) = true))).
  { clear qs. induction qs as [|q qs IH]; intros c l Hl Hinv.
    - exists l. auto.
    - cbn [submitAll].
      destruct (speculative_shape_step q c l Hl Hinv) as (l1 & Hl1 & Hinv1).
      destruct (submit q c) as [r c1]. cbn [snd] in *.
      destruct (IH c1 l1 Hl1 Hinv1) as (l2 & Hl2 & Hinv2).
      destruct (submitAll qs c1) as [rs c2]. cbn [snd] in *. eauto. }
  intros c Hr.
  destruct (H qs (transactionContext conn) [] eq_refl) as (l & Hl & Hinv).
  - intros _. split; intros p Hp; discriminate Hp.
  - exists l. split; [exact Hl|]. exact (Hinv Hr).
Qed.

(** ** Sessions without the canonical shape *)

Lemma submit_ready_plain q c l :
  previousQueries c = Some l ->
  readyToExecuteTransaction c = true ->
  Forall (fun p => isContextComment (sql p) = false) l ->
  isContextComment (sql q) = false ->
  submit q c =
    (answer (events c) (sql q) (args q),
     mkClient (Some (l ++ [q])%list) true (events c ++ [verbatim q])%list).
Proof.
  intros Hl Hr Hall Hc. unfold submit.
  rewrite (performIO_ready_query _ _ _ _ _ Hl Hr Hc
             (rewritten_no_context _ _ (previousContextComment_none _ Hall))).
  rewrite catching_query, (push_Some _ _ _ Hl), Hr. reflexivity.
Qed.

Lemma materialized_plain_run qs c l :
  previousQueries c = Some l ->
  readyToExecuteTransaction c = true ->
  Forall (fun p => isContextComment (sql p) = false) l ->
  Forall (fun p => isContextComment (sql p) = false) qs ->
  (submitAll qs c).2 =
    mkClient (Some (l ++ qs)%list) true (events c ++ List.map verbatim qs)%list.
Proof.
  revert c l. induction qs as [|q qs IH]; intros c l Hl Hr Hall Hqs.
  - cbn. rewrite !app_nil_r. destruct c; cbn in *. now subst.
  - apply Forall_cons in Hqs as [Hq Hqs]. cbn [submitAll].
    rewrite (submit_ready_plain q c l Hl Hr Hall Hq).
    specialize (IH (mkClient (Some (l ++ [q])%list) true (events c ++ [verbatim q])%list)
                  (l ++ [q])%list eq_refl eq_refl).
    destruct (submitAll qs _) as [rs c2]. cbn [snd] in *.
    rewrite IH; [|apply Forall_app; auto|exact Hqs].
    cbn. now rewrite <- !app_assoc.
Qed.

Lemma submitAll_state_cons q qs c :
  (submitAll (q :: qs) c).2 = (submitAll qs (submit q c).2).2.
Proof.
  cbn [submitAll]. destruct (submit q c) as [r c1]. cbn [snd].
  now destruct (submitAll qs c1).
Qed.

(** X6: a transaction without any context marker is sent statement by
    statement: its [BEGIN] when the second statement arrives, then each
    statement once, as it is and in order.  Only a replayed [BEGIN]
    that throws a failure which is no database error keeps the second
    statement back. *)
Theorem X6_plain_transaction_in_order conn b q rest :
  isBeginQuery (sql b) = true ->
  Forall (fun p => isContextComment (sql p) = false) (b :: q :: rest) ->
  (submitAll (b :: q :: rest) (transactionContext conn)).2 =
    mkClient (Some (b :: q :: rest)) true
      (events conn ++
       verbatim b ::
       match answer (events conn) (sql b) (args b) with
       | Throw _ => []
       | _ => [verbatim q]
       end ++ List.map verbatim rest)%list.
Proof.
  intros Hb Hall.
  apply Forall_cons in Hall as [Hbc Hall]. pose proof Hall as Hall'.
  apply Forall_cons in Hall' as [Hq Hrest].
  rewrite !submitAll_state_cons.
  erewrite (submit_begin_first b); [|reflexivity|reflexivity|exact Hb].
  cbn [snd].
  erewrite (submit_other_second b q); [|reflexivity|reflexivity|exact Hbc|exact Hq].
  cbn [push transactionContext set_previousQueries set_readyToExecuteTransaction
       previousQueries readyToExecuteTransaction events add_event app].
  fold (verbatim b). fold (verbatim q).
  assert (Hlog : Forall (fun p => isContextComment (sql p) = false) [b; q])
    by (repeat constructor; assumption).
  destruct (answer (events conn) (sql b) (args b)) as [[r|error]|e|]; cbn [snd];
    (erewrite (materialized_plain_run rest _ [b; q]);
       [|reflexivity|reflexivity|exact Hlog|exact Hrest]);
    cbn; now rewrite <- ?app_assoc.
Qed.

(** Third statement, neither marker nor write, after a statement and a
    marker: the session materializes, the first statement is replayed,
    the marker is passed over, and the third statement is sent. *)
Lemma submit_read_third b m q c :
  previousQueries c = Some [b; m] ->
  readyToExecuteTransaction c = false ->
  isContextComment (sql b) = false ->
  isWriteQuery (sql b) = false ->
  isContextComment (sql m) = true ->
  isWriteQuery (sql m) = false ->
  isContextComment (sql q) = false ->
  isWriteQuery (sql q) = false ->
  let c1 := add_event (verbatim b) (set_readyToExecuteTransaction true (push q c)) in
  submit q c =
    match answer (events c) (sql b) (args b) with
    | Throw e => (Throw e, c1)
    | _ => (answer (events c1) (sql q) (args q), add_event (verbatim q) c1)
    end.
Proof.
  intros Hl Hr Hb Hbw Hm Hmw Hq Hqw c1.
  rewrite (submit_speculative _ _ _ Hl Hr).
  rewrite (compact_speculative _ _ _ _ Hl Hr), (rewritten_plain _ _ Hqw).
  cbv zeta. cbn [length Nat.eqb]. rewrite Hq, Hqw.
  rewrite !andb_false_r. cbn [orb negb andb catchUp].
  assert (Hl2 : previousQueries (set_readyToExecuteTransaction true (push q c))
                = Some [b; m; q]) by (rewrite (push_Some _ _ _ Hl); reflexivity).
  rewrite (replay_step 0 b _ _ Hl2 eq_refl), (rewritten_plain _ _ Hbw), Hb.
  rewrite catching_query. fold (verbatim b). fold c1.
  replace (events (set_readyToExecuteTransaction true (push q c))) with (events c)
    by (rewrite (push_Some _ _ _ Hl); reflexivity).
  assert (Hl3 : previousQueries c1 = Some [b; m; q]) by exact Hl2.
  pose proof (answer_cases (events c) (sql b) (args b)) as Ha.
  destruct (answer (events c) (sql b) (args b)) as [[r|error]|e|]; try easy.
  1,2: rewrite (replay_step 0 m _ _ Hl3 eq_refl), (rewritten_plain _ _ Hmw), Hm;
       unfold skipContextOrQuery; rewrite Hq; cbn [andb]; apply catching_query.
  destruct Ha as [_ He]. unfold catching. now rewrite He.
Qed.

(** X7: [BEGIN], a context marker, then a statement that is no write:
    the third statement materializes the session.  The connection is
    asked for [BEGIN], not for the marker, and then for the third
    statement as it is. *)
Theorem X7_read_after_marker conn b m q :
  isBeginQuery (sql b) = true ->
  isContextComment (sql b) = false ->
  isWriteQuery (sql b) = false ->
  isContextComment (sql m) = true ->
  isWriteQuery (sql m) = false ->
  isContextComment (sql q) = false ->
  isWriteQuery (sql q) = false ->
  (submitAll [b; m; q] (transactionContext conn)).2 =
    mkClient (Some [b; m; q]) true
      (events conn ++
       verbatim b ::
       match answer (events conn) (sql b) (args b) with
       | Throw _ => []
       | _ => [verbatim q]
       end)%list.
Proof.
  intros Hb Hbc Hbw Hm Hmw Hq Hqw. cbn [submitAll].
  erewrite (submit_begin_first b); [|reflexivity|reflexivity|exact Hb].
  erewrite (submit_marker_second b m); [|reflexivity|reflexivity|exact Hbc|exact Hm].
  erewrite (submit_read_third b m q); try eassumption; try reflexivity.
  cbn [push transactionContext set_previousQueries set_readyToExecuteTransaction
       previousQueries readyToExecuteTransaction events add_event app].
  destruct (answer (events conn) (sql b) (args b)) as [[r|error]|e|];
    unfold add_event, set_readyToExecuteTransaction, set_previousQueries,
      transactionContext; cbn; now rewrite <- ?app_assoc.
Qed.

(** First statement, neither [BEGIN] nor marker: sent at once. *)
Lemma submit_first_other p c :
  previousQueries c = Some [] ->
  readyToExecuteTransaction c = false ->
  isBeginQuery (sql p) = false ->
  isContextComment (sql p) = false ->
  submit p c = (answer (events c) (sql p) (args p), add_event (verbatim p) (push p c)).
Proof.
  intros Hl Hr Hb Hc. rewrite (submit_speculative _ _ _ Hl Hr).
  rewrite (compact_speculative _ _ _ _ Hl Hr), rewritten_no_context by reflexivity.
  cbv zeta. cbn [length Nat.eqb truthy_text previousContextComment find option_map].
  rewrite Hb. rewrite !andb_false_r. cbn [andb orb].
  unfold skipContextOrQuery. rewrite Hc. cbn [andb].
  rewrite catching_query, (push_Some _ _ _ Hl). reflexivity.
Qed.

(** X8: when a session opens with a statement that is neither [BEGIN]
    nor a context marker, that statement is sent at once; a second
    statement that is no marker then replays the log, and the first
    statement is sent a second time, before the second one. *)
Theorem X8_first_statement_sent_twice conn p q :
  isBeginQuery (sql p) = false ->
  isContextComment (sql p) = false ->
  isContextComment (sql q) = false ->
  (submitAll [p; q] (transactionContext conn)).2 =
    mkClient (Some [p; q]) true
      (events conn ++
       verbatim p :: verbatim p ::
       match answer (events conn ++ [verbatim p]) (sql p) (args p) with
       | Throw _ => []
       | _ => [verbatim q]
       end)%list.
Proof.
  intros Hb Hp Hq. cbn [submitAll].
  erewrite (submit_first_other p); [|reflexivity|reflexivity|exact Hb|exact Hp].
  erewrite (submit_other_second p q); [|reflexivity|reflexivity|exact Hp|exact Hq].
  cbn [push transactionContext set_previousQueries set_readyToExecuteTransaction
       previousQueries readyToExecuteTransaction events add_event app].
  fold (verbatim p).
  destruct (answer (events conn ++ [verbatim p]) (sql p) (args p)) as [[r|error]|e|];
    unfold add_event, set_readyToExecuteTransaction, set_previousQueries,
      transactionContext; cbn; now rewrite <- ?app_assoc.
Qed.

(** X9: an unmaterialized session that already holds three statements
    or more never materializes.  Whatever is submitted, the flag stays
    false and nothing is replayed; a statement that is no marker and is
    not the [COMMIT] withheld in fourth position is sent at once, so a
    [BEGIN] withheld at the start is never sent. *)
Theorem X9_late_statements q c l text :
  previousQueries c = Some l ->
  readyToExecuteTransaction c = false ->
  3 <= length l ->
  rewritten (sql q) l = inr text ->
  readyToExecuteTransaction (submit q c).2 = false /\
  (withheld (sql q) l = false ->
   isContextComment (sql q) = false ->
   submit q c =
     (answer (events c) text (args q),
      mkClient (Some (l ++ [q])%list) false
        (events c ++ [EvQuery text (fixArrayBufferValues (args q))])%list)).
Proof.
  intros Hl Hr Hn Ht.
  assert (Htr : triggers (sql q) l = false).
  { unfold triggers. destruct l as [|? [|? [|? ?]]]; cbn in *; lia || reflexivity. }
  split.
  - now rewrite (speculative_flag q c l Hl Hr), Ht.
  - intros Hw Hc.
    rewrite (submit_speculative _ _ _ Hl Hr), (compact_speculative _ _ _ _ Hl Hr), Ht.
    cbv zeta. unfold withheld in Hw. apply orb_false_elim in Hw as [-> ->].
    unfold triggers in Htr. rewrite Htr.
    unfold skipContextOrQuery. rewrite Hc. cbn [andb].
    rewrite catching_query, (push_Some _ _ _ Hl), Hr. reflexivity.
Qed.

(** X10: a write statement that follows a context marker the decoder
    rejects is neither logged nor sent: the session is left exactly as
    it was, and the caller gets what the decoder threw (as a returned
    error if it has the shape of a database error). *)
Theorem X10_malformed_marker q c pre m post e :
  previousQueries c = Some (pre ++ m :: post)%list ->
  Forall (fun p => isContextComment (sql p) = false) pre ->
  isContextComment (sql m) = true ->
  sql m <> EmptyString ->
  sqlCommentToContext (sql m) = inl e ->
  isWriteQuery (sql q) = true ->
  (submit q c).2 = c /\
  (submit q c).1 =
    if databaseReported e
    then Return (err (Postgres (prop e "code") (prop e "severity") (prop e "message")
                        (prop e "detail") (prop e "column") (prop e "hint")))
    else Throw e.
Proof.
  intros Hl Hpre Hm Hne Hd Hw.
  assert (Ht : rewritten (sql q) (pre ++ m :: post) = inl e).
  { unfold rewritten. rewrite (previousContextComment_first pre m post Hpre Hm), Hw.
    cbn. destruct (String.eqb_spec (sql m) EmptyString) as [E|_]; [easy|].
    cbn. now rewrite Hd. }
  rewrite (submit_decode_failure _ _ _ _ Hl Ht). unfold catching.
  now destruct (databaseReported e).
Qed.

(** ** [queryRaw] *)

Lemma columnTypesOf_converted (fs : list FieldDef) ts :
  columnTypesOf fs = inr ts ->
  Forall2 (fun f t => fieldToColumnType (dataTypeID f) = inr t) fs ts.
Proof.
  revert ts. induction fs as [|f fs IH]; intros ts H; cbn in H.
  - injection H as <-. constructor.
  - destruct (fieldToColumnType (dataTypeID f)) as [x|t] eqn:Hf; [discriminate|].
    destruct (columnTypesOf fs) as [x|ts']; [discriminate|].
    injection H as <-. constructor; auto.
Qed.

Lemma columnTypesOf_first_failure pre f post x :
  Forall (fun g => exists t, fieldToColumnType (dataTypeID g) = inr t) pre ->
  fieldToColumnType (dataTypeID f) = inl x ->
  columnTypesOf (pre ++ f :: post) = inl x.
Proof.
  intros Hpre Hf. induction Hpre as [|g pre [t Hg] _ IH]; cbn.
  - now rewrite Hf.
  - now rewrite Hg, IH.
Qed.

(** X11: when [queryRaw] succeeds, the statement went through
    [performIO] with a result, the rows are that result's rows, and
    there is one column name and one column type per field of the
    result, in the order of the fields: the field's name, and the
    conversion of the field's type. *)
Theorem X11_queryRaw_result_shape q c rs c' :
  queryRaw q c = (Return (ok rs), c') ->
  exists result,
    submit q c = (Return (ok result), c') /\
    rows_of rs = rows result /\
    columnNames rs = List.map name (fields result) /\
    Forall2 (fun f t => fieldToColumnType (dataTypeID f) = inr t)
      (fields result) (columnTypes rs) /\
    length (columnNames rs) = length (columnTypes rs).
Proof.
  unfold queryRaw. intros H.
  destruct (submit q c) as [[[result|error]|e|] c1]; try discriminate H.
  destruct (columnTypesOf (fields result)) as [[ty|e]|ts] eqn:Hts; try discriminate H.
  injection H as <- <-. exists result. cbn.
  pose proof (columnTypesOf_converted _ _ Hts) as Hconv.
  repeat split; auto.
  rewrite length_map. exact (Forall2_length _ _ _ Hconv).
Qed.

(** X12: when the result has a field whose type does not convert,
    [queryRaw] answers for the first such field: an
    [UnsupportedNativeDataType] error carrying the type if that is what
    the conversion threw, and otherwise the thrown value, thrown again.
    The session is the one the executed statement left. *)
Theorem X12_queryRaw_unconverted_field q c result c' pre f post x :
  submit q c = (Return (ok result), c') ->
  fields result = (pre ++ f :: post)%list ->
  Forall (fun g => exists t, fieldToColumnType (dataTypeID g) = inr t) pre ->
  fieldToColumnType (dataTypeID f) = inl x ->
  queryRaw q c =
    (match x with
     | Unsupported type => Return (err (UnsupportedNativeDataType type))
     | Other e => Throw e
     end, c').
Proof.
  intros Hs Hf Hpre Hx. unfold queryRaw.
  rewrite Hs, Hf, (columnTypesOf_first_failure pre f post x Hpre Hx).
  now destruct x.
Qed.

(** ** Nesting, reuse, merging *)

(** X13: the replay never nests.  A replayed call finds the flag set
    and makes no call of [performIO] of its own, so any call of
    [performIO] is over after at most two levels, whatever the session
    and the statement. *)
Theorem X13_replay_does_not_nest :
  (forall n q c l,
      previousQueries c = Some l ->
      readyToExecuteTransaction c = true ->
      forall cu, performIO (S n) q cu c = performIO 1 q cu c) /\
  (forall n q cu c,
      performIO (2 + n) q cu c = performIO 2 q cu c /\
      (performIO 2 q cu c).1 <> Stuck).
Proof.
  split.
  - intros n q c l Hl Hr cu. cbn [performIO].
    now rewrite !(compact_ready _ _ _ _ _ Hl Hr).
  - intros. apply performIO_fuel.
Qed.

Lemma canonical_run conn b m w k context :
  isBeginQuery (sql b) = true ->
  isContextComment (sql b) = false ->
  isContextComment (sql m) = true ->
  sql m <> EmptyString ->
  sqlCommentToContext (sql m) = inr context ->
  isWriteQuery (sql w) = true ->
  isContextComment (sql w) = false ->
  isCommitQuery (sql k) = true ->
  (submitAll [b; m; w; k] (transactionContext conn)).2 =
    mkClient (Some [b; m; w; k]) false
      (events conn ++
       [EvQuery (sql w +:+ " " +:+ contextToSqlComment (with_SQL (sql w) context))
          (fixArrayBufferValues (args w))])%list.
Proof.
  intros Hb Hbc Hm Hne Hd Hw Hwc Hk.
  rewrite !submitAll_state_cons.
  erewrite (submit_begin_first b); [|reflexivity|reflexivity|exact Hb]. cbn [snd].
  erewrite (submit_marker_second b m); [|reflexivity|reflexivity|exact Hbc|exact Hm].
  cbn [snd].
  erewrite (submit_write_third b m w _ context); try eassumption; try reflexivity.
  cbn [snd].
  erewrite (submit_commit_fourth b m w k _ context); try eassumption; reflexivity.
Qed.

(** X14: two canonical transactions, one after the other on the same
    pooled connection, the first committed, the second rolled back.
    [transactionContext] starts the second with an empty log and the
    flag false whatever the first left behind, [startTransaction] sends
    nothing, and all the connection is asked is: the first write, a
    release, the second write, a release. *)
Theorem X14_sessions_back_to_back conn b m w k context :
  isBeginQuery (sql b) = true ->
  isContextComment (sql b) = false ->
  isContextComment (sql m) = true ->
  sql m <> EmptyString ->
  sqlCommentToContext (sql m) = inr context ->
  isWriteQuery (sql w) = true ->
  isContextComment (sql w) = false ->
  isCommitQuery (sql k) = true ->
  let request :=
    EvQuery (sql w +:+ " " +:+ contextToSqlComment (with_SQL (sql w) context))
      (fixArrayBufferValues (args w)) in
  let first := (startTransaction (transactionContext conn)).2 in
  let committed := (commit (submitAll [b; m; w; k] first).2).2 in
  let second := (startTransaction (transactionContext committed)).2 in
  let rolled_back := (rollback (submitAll [b; m; w; k] second).2).2 in
  second = mkClient (Some []) false (events conn ++ [request; EvRelease])%list /\
  events rolled_back = (events conn ++ [request; EvRelease; request; EvRelease])%list.
Proof.
  intros Hb Hbc Hm Hne Hd Hw Hwc Hk. cbv zeta. cbn [startTransaction snd].
  rewrite (canonical_run conn b m w k context Hb Hbc Hm Hne Hd Hw Hwc Hk).
  split.
  - unfold commit, release, add_event, transactionContext,
      set_readyToExecuteTransaction, set_previousQueries.
    cbn. now rewrite <- ?app_assoc.
  - rewrite (canonical_run _ b m w k context Hb Hbc Hm Hne Hd Hw Hwc Hk).
    unfold rollback, commit, release, add_event. cbn. now rewrite <- ?app_assoc.
Qed.

(** X15: the payload built for a write statement has every key of the
    prior context with the prior context's value, and an [SQL] key
    besides; building it again from the result, for another statement,
    changes nothing: the [SQL] entry that is there stays. *)
Theorem X15_merged_payload text text' (context : Payload) :
  context ⊆ with_SQL text context /\
  dom (with_SQL text context) = dom context ∪ {[ "SQL" ]} /\
  with_SQL text' (with_SQL text context) = with_SQL text context.
Proof.
  unfold with_SQL. repeat split.
  - apply map_union_subseteq_l.
  - now rewrite dom_union_L, dom_singleton_L.
  - apply map_eq. intros k.
    destruct ((context ∪ {["SQL" := text]}) !! k) as [v|] eqn:Hk.
    + now apply lookup_union_Some_l.
    + rewrite lookup_union_r by exact Hk.
      apply lookup_union_None in Hk as [_ Hk].
      destruct (decide (k = "SQL")) as [->|Hne].
      * now rewrite lookup_singleton_eq in Hk.
      * now apply lookup_singleton_ne.
Qed.

End Coverage.

(** ** The theorems at work on concrete sessions *)

Import SpecUtils.
#[local] Existing Instance utils.

(** The two example sessions are what the adapter makes of their
    statements. *)
Lemma two_markers_reached :
  (@submitAll utils obliging [BEGIN; marker_of user_alice; marker_of user_bob]
     (transactionContext idle)).2 = two_markers.
Proof. vm_compute. reflexivity. Qed.

Lemma materialized_reached :
  (@submitAll utils obliging [BEGIN; SELECT_1] (transactionContext idle)).2 = materialized.
Proof. vm_compute. reflexivity. Qed.

(** C1 as stated fails: with two markers in the log the most recent one
    carries [user = bob], yet the write statement is sent with the
    payload of the earlier one, [user = alice]. *)
Lemma C1_most_recent_marker_not_used :
  mostRecentContextComment [BEGIN; marker_of user_alice; marker_of user_bob]
    = Some (sql (marker_of user_bob)) /\
  sqlCommentToContext (sql (marker_of user_bob)) = inr user_bob /\
  events (@submit utils obliging UPDATE two_markers).2 =
    [EvQuery "BEGIN" [];
     EvQuery (sql UPDATE +:+ " " +:+ contextToSqlComment (with_SQL (sql UPDATE) user_alice)) []] /\
  contextToSqlComment (with_SQL (sql UPDATE) user_alice)
    <> contextToSqlComment (with_SQL (sql UPDATE) user_bob).
Proof.
  repeat split; try (vm_compute; reflexivity).
  vm_compute. intros H. discriminate H.
Qed.

Lemma C1_context_from_first_marker_witness :
  events (@submit utils obliging UPDATE two_markers).2 =
    (events two_markers ++
     [EvQuery (sql UPDATE +:+ " " +:+ contextToSqlComment (with_SQL (sql UPDATE) user_alice))
        (@fixArrayBufferValues obliging (args UPDATE))])%list.
Proof.
  apply (@C1_context_from_first_marker utils obliging two_markers
           [BEGIN] (marker_of user_alice) [marker_of user_bob] UPDATE user_alice).
  - reflexivity.
  - repeat constructor.
  - vm_compute. reflexivity.
  - vm_compute. intros H. discriminate H.
  - vm_compute. reflexivity.
  - vm_compute. reflexivity.
  - vm_compute. reflexivity.
  - vm_compute. reflexivity.
Defined.

(** C2, the code at work: the marker of the spec's own scenario
    carries an [SQL] key.  Line 149 sets [SQL] to the text of the write
    statement and then spreads the decoded context over it, so the
    comment appended to the statement decodes to a payload whose [SQL]
    is the marker's value, not the statement's text. *)
Lemma C2_reserved_key_not_overwritten :
  let c := (@submitAll utils obliging [BEGIN; marker_of with_sql_key]
              (transactionContext idle)).2 in
  exists comment decoded,
    events (@submit utils obliging UPDATE c).2 =
      [EvQuery (sql UPDATE +:+ " " +:+ comment) []] /\
    sqlCommentToContext comment = inr decoded /\
    decoded !! "SQL" = Some "SELECT 1" /\
    decoded !! "SQL" <> Some (sql UPDATE).
Proof.
  exists (contextToSqlComment with_sql_key), with_sql_key.
  repeat split; try (vm_compute; reflexivity).
  vm_compute. intros H. discriminate H.
Qed.

(** C3, the code at work: the connection answers the replayed [BEGIN]
    with a database error; the submission of [SELECT 1] that triggered
    the replay goes on, sends [SELECT 1] and returns its rows.  The
    error of the [BEGIN] reaches nobody. *)
Theorem C3_replay_failure_dropped :
  let c1 := (@submit utils refusing_begin BEGIN (transactionContext idle)).2 in
  @client_query refusing_begin [] "BEGIN" [] = inl no_transaction /\
  @databaseReported no_transaction = true /\
  @performIO utils refusing_begin 1 BEGIN true
      (mkClient (Some [BEGIN; SELECT_1]) true [])
    = (Return (err (Postgres (JsString "25P02") (JsString "ERROR")
                      (JsString "current transaction is aborted")
                      JsUndefined JsUndefined JsUndefined)),
       mkClient (Some [BEGIN; SELECT_1]) true [EvQuery "BEGIN" []]) /\
  @submit utils refusing_begin SELECT_1 c1
    = (Return (ok one_row),
       mkClient (Some [BEGIN; SELECT_1]) true
         [EvQuery "BEGIN" []; EvQuery "SELECT 1" []]).
Proof. repeat split; vm_compute; reflexivity. Qed.

(** C4 as stated fails when the marker does not decode: the write
    statement throws before it is logged or sent, so [COMMIT] arrives
    third, triggers the replay, and the connection is asked for [BEGIN]
    and for [COMMIT], and never for the write statement. *)
Lemma C4_undecodable_marker_not_collapsed :
  isBeginQuery (sql BEGIN) = true /\
  isContextComment (sql broken_marker) = true /\
  isWriteQuery (sql UPDATE) = true /\
  isCommitQuery (sql COMMIT) = true /\
  @submitAll utils obliging [BEGIN; broken_marker; UPDATE; COMMIT]
    (transactionContext idle) =
    ([Return (ok EMPTY_RESULT); Return (ok EMPTY_RESULT);
      Throw malformed; Return (ok one_row)],
     mkClient (Some [BEGIN; broken_marker; COMMIT]) true
       [EvQuery "BEGIN" []; EvQuery "COMMIT" []]).
Proof. repeat split; vm_compute; reflexivity. Qed.

Lemma C4_canonical_session_witness :
  @submitAll utils obliging [BEGIN; marker_of user_alice; UPDATE; COMMIT]
    (transactionContext idle) =
    ([Return (ok EMPTY_RESULT); Return (ok EMPTY_RESULT);
      Return (ok one_row); Return (ok EMPTY_RESULT)],
     mkClient (Some [BEGIN; marker_of user_alice; UPDATE; COMMIT]) false
       [EvQuery (sql UPDATE +:+ " " +:+ contextToSqlComment (with_SQL (sql UPDATE) user_alice))
          []]).
Proof.
  apply (@C4_canonical_session utils obliging idle
           BEGIN (marker_of user_alice) UPDATE COMMIT user_alice).
  - vm_compute. reflexivity.
  - vm_compute. reflexivity.
  - vm_compute. reflexivity.
  - vm_compute. intros H. discriminate H.
  - vm_compute. reflexivity.
  - vm_compute. reflexivity.
  - vm_compute. reflexivity.
  - vm_compute. reflexivity.
Defined.

Lemma C5_begin_before_second_statement_witness :
  let c1 := (@submit utils obliging BEGIN (transactionContext idle)).2 in
  let c2 := (@submit utils obliging SELECT_1 c1).2 in
  readyToExecuteTransaction c1 = false /\
  readyToExecuteTransaction c2 = true /\
  exists rest,
    events c2 = EvQuery "BEGIN" [] :: rest /\ rest = [EvQuery "SELECT 1" []].
Proof.
  destruct (@C5_begin_before_second_statement utils obliging idle BEGIN SELECT_1)
    as (_ & _ & H1 & H2 & rest & Hev & Hrest).
  - vm_compute. reflexivity.
  - vm_compute. reflexivity.
  - vm_compute. reflexivity.
  - split; [exact H1|]. split; [exact H2|]. exists rest. split; [exact Hev|exact Hrest].
Defined.

Lemma C6_materialization_monotonic_witness :
  readyToExecuteTransaction (@submit utils obliging COMMIT materialized).2 = true /\
  events (@submit utils obliging COMMIT materialized).2 =
    [EvQuery "BEGIN" []; EvQuery "SELECT 1" []; EvQuery "COMMIT" []].
Proof.
  destruct (@C6_materialization_monotonic utils obliging) as (_ & Hmono & _ & Hsent).
  split.
  - apply Hmono. reflexivity.
  - apply (Hsent COMMIT materialized [BEGIN; SELECT_1]).
    + reflexivity.
    + reflexivity.
    + right. vm_compute. reflexivity.
    + vm_compute. reflexivity.
    + vm_compute. reflexivity.
Defined.

(** C7 as stated fails in its first half: a marker submitted third,
    after [BEGIN] and another marker, triggers the replay; the
    connection is lost on the replayed [BEGIN], and the submission of
    the marker throws instead of returning the empty result.  (The
    marker itself is not sent.) *)
Lemma C7_marker_submission_throws :
  let c := (@submitAll utils losing_begin [BEGIN; marker_of user_alice]
              (transactionContext idle)).2 in
  isContextComment (sql (marker_of user_bob)) = true /\
  @submit utils losing_begin (marker_of user_bob) c
    = (Throw connection_lost,
       mkClient (Some [BEGIN; marker_of user_alice; marker_of user_bob]) true
         [EvQuery "BEGIN" []]) /\
  (@submit utils losing_begin (marker_of user_bob) c).1 <> Return (ok EMPTY_RESULT).
Proof.
  repeat split; try (vm_compute; reflexivity).
  vm_compute. intros H. discriminate H.
Qed.

Lemma C7_marker_never_forwarded_witness :
  @submit utils obliging (marker_of user_bob) materialized
    = (Return (ok EMPTY_RESULT), push (marker_of user_bob) materialized) /\
  exists r c' evs,
    @submit utils obliging (marker_of user_bob)
      (mkClient (Some [BEGIN; marker_of user_alice]) false []) = (r, c') /\
    readyToExecuteTransaction c' = true /\
    events c' = evs /\
    Forall (fun ev => exists p, In p [BEGIN; marker_of user_alice] /\
                                isContextComment (sql p) = false /\
                                exists text, ev = EvQuery text (args p)) evs.
Proof.
  split.
  - destruct (@C7_marker_never_forwarded utils obliging materialized
                [BEGIN; SELECT_1] (marker_of user_bob)) as (_ & _ & H & _).
    + reflexivity.
    + vm_compute. reflexivity.
    + apply (H (sql (marker_of user_bob))).
      * vm_compute. reflexivity.
      * left. reflexivity.
  - destruct (@C7_marker_never_forwarded utils obliging
                (mkClient (Some [BEGIN; marker_of user_alice]) false [])
                [BEGIN; marker_of user_alice] (marker_of user_bob)) as (_ & _ & _ & H).
    + reflexivity.
    + vm_compute. reflexivity.
    + destruct (H (sql (marker_of user_bob))) as (r & c' & evs & Hs & _ & Hr & Hev & Hall & _).
      * vm_compute. reflexivity.
      * reflexivity.
      * reflexivity.
      * vm_compute. reflexivity.
      * exists r, c', evs. repeat split; try assumption.
        eapply Forall_impl; [exact Hall|].
        intros ev (p & Hin & Hc & text & _ & ->). eauto.
Defined.

(** C8 as stated fails: after [commit] the session takes [SELECT 2]
    like any other statement, sends it to the released connection and
    returns the rows; nothing is rejected. *)
Lemma C8_closed_session_still_executes :
  let closed := (@commit materialized).2 in
  @submit utils obliging SELECT_2 closed
    = (Return (ok one_row),
       mkClient (Some [BEGIN; SELECT_1; SELECT_2]) true
         [EvQuery "BEGIN" []; EvQuery "SELECT 1" []; EvRelease; EvQuery "SELECT 2" []]).
Proof. vm_compute. reflexivity. Qed.

Lemma C8_submission_after_close_witness :
  (exists r c',
     @submit utils obliging SELECT_1 (mkClient (Some [BEGIN]) false []) = (r, rebase [] c') /\
     @submit utils obliging SELECT_1 (rollback (mkClient (Some [BEGIN]) false [])).2
       = (r, rebase [EvRelease] c')) /\
  (@submit utils obliging SELECT_2 (commit materialized).2).1
    = @answer obliging (events materialized ++ [EvRelease]) (sql SELECT_2) (args SELECT_2) /\
  events (@submit utils obliging SELECT_2 (commit materialized).2).2 =
    (events materialized ++ [EvRelease; EvQuery (sql SELECT_2) []])%list.
Proof.
  split.
  - destruct (@C8_submission_after_close utils obliging SELECT_1
                (mkClient (Some [BEGIN]) false [])
                (rollback (mkClient (Some [BEGIN]) false [])).2)
      as (_ & _ & _ & H & _).
    + right. reflexivity.
    + apply H. intros since text values. reflexivity.
  - destruct (@C8_submission_after_close utils obliging SELECT_2 materialized
                (commit materialized).2) as (_ & _ & _ & _ & H).
    + left. reflexivity.
    + apply (H [BEGIN; SELECT_1]).
      * reflexivity.
      * reflexivity.
      * vm_compute. reflexivity.
      * vm_compute. reflexivity.
Defined.


(** ** The further theorems at work *)

Lemma X1_pool_passthrough_witness :
  @submit utils obliging (marker_of user_alice) idle =
    (Return (ok one_row),
     mkClient None false [EvQuery (sql (marker_of user_alice)) []]) /\
  @executeRaw utils obliging BEGIN idle =
    (Return (ok 1%Z), mkClient None false [EvQuery "BEGIN" []]).
Proof.
  split.
  - apply (@X1_pool_passthrough utils obliging (marker_of user_alice) idle).
    reflexivity.
  - destruct (@X1_pool_passthrough utils obliging BEGIN idle) as [_ H].
    + reflexivity.
    + apply (H one_row). reflexivity.
Defined.

Lemma X2_log_only_grows_witness :
  previousQueries (@submit utils obliging UPDATE two_markers).2 =
    Some [BEGIN; marker_of user_alice; marker_of user_bob; UPDATE] /\
  previousQueries (@submit utils obliging UPDATE after_broken_marker).2 =
    Some [BEGIN; broken_marker] /\
  previousQueries (@performIO utils obliging 1 BEGIN true materialized).2 =
    Some [BEGIN; SELECT_1].
Proof.
  destruct (@X2_log_only_grows utils obliging) as (Hone & _ & Hreplay).
  split; [|split].
  - exact (Hone UPDATE two_markers
             [BEGIN; marker_of user_alice; marker_of user_bob] eq_refl).
  - exact (Hone UPDATE after_broken_marker [BEGIN; broken_marker] eq_refl).
  - apply (Hreplay 0 BEGIN materialized).
    + reflexivity.
    + reflexivity.
Defined.

Lemma X3_submission_traffic_witness :
  exists evs,
    events (@submit utils obliging COMMIT materialized).2 =
      (events materialized ++ evs)%list /\
    length evs <= 1.
Proof.
  destruct (@X3_submission_traffic utils obliging COMMIT materialized)
    as (evs & Hev & _ & _ & Hone).
  exists evs. split; [exact Hev|]. apply Hone. right. reflexivity.
Defined.

Lemma X4_materialization_window_witness :
  readyToExecuteTransaction
    (@submit utils obliging SELECT_1 (mkClient (Some [BEGIN]) false [])).2 = true.
Proof.
  apply (@X4_materialization_window utils obliging SELECT_1
           (mkClient (Some [BEGIN]) false []) [BEGIN]).
  - reflexivity.
  - reflexivity.
  - split.
    + exists (sql SELECT_1). vm_compute. reflexivity.
    + left. split; [reflexivity|]. vm_compute. reflexivity.
Defined.

Lemma X5_speculative_log_shape_witness :
  exists l,
    previousQueries
      (@submitAll utils obliging [BEGIN; marker_of user_alice; UPDATE]
         (transactionContext idle)).2 = Some l /\
    (forall p, l !! 1 = Some p -> isContextComment (sql p) = true) /\
    (forall p, l !! 2 = Some p -> isWriteQuery (sql p) = true).
Proof.
  apply (@X5_speculative_log_shape utils obliging
           [BEGIN; marker_of user_alice; UPDATE] idle).
  vm_compute. reflexivity.
Defined.

Lemma X6_plain_transaction_in_order_witness :
  (@submitAll utils obliging [BEGIN; SELECT_1; SELECT_2; COMMIT]
     (transactionContext idle)).2 =
    mkClient (Some [BEGIN; SELECT_1; SELECT_2; COMMIT]) true
      [EvQuery "BEGIN" []; EvQuery "SELECT 1" []; EvQuery "SELECT 2" [];
       EvQuery "COMMIT" []].
Proof.
  apply (@X6_plain_transaction_in_order utils obliging idle BEGIN SELECT_1
           [SELECT_2; COMMIT]).
  - vm_compute. reflexivity.
  - repeat constructor.
Defined.

Lemma X7_read_after_marker_witness :
  (@submitAll utils obliging [BEGIN; marker_of user_alice; SELECT_1]
     (transactionContext idle)).2 =
    mkClient (Some [BEGIN; marker_of user_alice; SELECT_1]) true
      [EvQuery "BEGIN" []; EvQuery "SELECT 1" []].
Proof.
  apply (@X7_read_after_marker utils obliging idle BEGIN (marker_of user_alice) SELECT_1).
  - vm_compute. reflexivity.
  - vm_compute. reflexivity.
  - vm_compute. reflexivity.
  - vm_compute. reflexivity.
  - vm_compute. reflexivity.
  - vm_compute. reflexivity.
  - vm_compute. reflexivity.
Defined.

Lemma X8_first_statement_sent_twice_witness :
  (@submitAll utils obliging [SELECT_1; SELECT_2] (transactionContext idle)).2 =
    mkClient (Some [SELECT_1; SELECT_2]) true
      [EvQuery "SELECT 1" []; EvQuery "SELECT 1" []; EvQuery "SELECT 2" []].
Proof.
  apply (@X8_first_statement_sent_twice utils obliging idle SELECT_1 SELECT_2).
  - vm_compute. reflexivity.
  - vm_compute. reflexivity.
  - vm_compute. reflexivity.
Defined.

Lemma X9_late_statements_witness :
  let text := sql UPDATE +:+ " " +:+ contextToSqlComment (with_SQL (sql UPDATE) user_alice) in
  @submit utils obliging UPDATE three_statements =
    (Return (ok one_row),
     mkClient (Some [BEGIN; marker_of user_alice; UPDATE; UPDATE]) false
       [EvQuery text []; EvQuery text []]).
Proof.
  destruct (@X9_late_statements utils obliging UPDATE three_statements
              [BEGIN; marker_of user_alice; UPDATE]
              (sql UPDATE +:+ " " +:+ contextToSqlComment (with_SQL (sql UPDATE) user_alice)))
    as [_ H].
  - reflexivity.
  - reflexivity.
  - vm_compute. lia.
  - vm_compute. reflexivity.
  - apply H.
    + vm_compute. reflexivity.
    + vm_compute. reflexivity.
Defined.

Lemma X10_malformed_marker_witness :
  (@submit utils obliging UPDATE after_broken_marker).2 = after_broken_marker /\
  (@submit utils obliging UPDATE after_broken_marker).1 = Throw malformed.
Proof.
  apply (@X10_malformed_marker utils obliging UPDATE after_broken_marker
           [BEGIN] broken_marker [] malformed).
  - reflexivity.
  - repeat constructor.
  - vm_compute. reflexivity.
  - vm_compute. intros H. discriminate H.
  - vm_compute. reflexivity.
  - vm_compute. reflexivity.
Defined.

Lemma X11_queryRaw_result_shape_witness :
  exists result,
    @submit utils obliging SELECT_1 idle =
      (Return (ok result), mkClient None false [EvQuery "SELECT 1" []]) /\
    rows_of (mkResultSet ["x"] [23%Z] [[JsNumber 1]]) = rows result /\
    columnNames (mkResultSet ["x"] [23%Z] [[JsNumber 1]]) = List.map name (fields result).
Proof.
  destruct (@X11_queryRaw_result_shape utils obliging SELECT_1 idle
              (mkResultSet ["x"] [23%Z] [[JsNumber 1]])
              (mkClient None false [EvQuery "SELECT 1" []]))
    as (result & Hs & Hrows & Hnames & _).
  - vm_compute. reflexivity.
  - exists result. auto.
Defined.

Lemma X12_queryRaw_unconverted_field_witness :
  @queryRaw utils integers_only SELECT_1 idle =
    (Return (err (UnsupportedNativeDataType 604)),
     mkClient None false [EvQuery "SELECT 1" []]).
Proof.
  apply (@X12_queryRaw_unconverted_field utils integers_only SELECT_1 idle two_columns
           (mkClient None false [EvQuery "SELECT 1" []])
           [mkField "id" 23] (mkField "shape" 604) [] (Unsupported 604)).
  - vm_compute. reflexivity.
  - reflexivity.
  - repeat constructor. exists 0%Z. reflexivity.
  - reflexivity.
Defined.

Lemma X13_replay_does_not_nest_witness :
  @performIO utils obliging 5 COMMIT true materialized =
  @performIO utils obliging 1 COMMIT true materialized.
Proof.
  destruct (@X13_replay_does_not_nest utils obliging) as [H _].
  apply (H 4 COMMIT materialized [BEGIN; SELECT_1]).
  - reflexivity.
  - reflexivity.
Defined.

Lemma X14_sessions_back_to_back_witness :
  let request :=
    EvQuery (sql UPDATE +:+ " " +:+ contextToSqlComment (with_SQL (sql UPDATE) user_alice)) [] in
  let session := [BEGIN; marker_of user_alice; UPDATE; COMMIT] in
  let committed :=
    (commit (@submitAll utils obliging session (transactionContext idle)).2).2 in
  events (rollback (@submitAll utils obliging session (transactionContext committed)).2).2
    = [request; EvRelease; request; EvRelease].
Proof.
  apply (@X14_sessions_back_to_back utils obliging idle
           BEGIN (marker_of user_alice) UPDATE COMMIT user_alice).
  - vm_compute. reflexivity.
  - vm_compute. reflexivity.
  - vm_compute. reflexivity.
  - vm_compute. intros H. discriminate H.
  - vm_compute. reflexivity.
  - vm_compute. reflexivity.
  - vm_compute. reflexivity.
  - vm_compute. reflexivity.
Defined.
